(** * Tank-level relay: the publisher service and the alert subscribers

    A shallow embedding of [src/publisher.js] (the HTTP ingest handler, the
    evaluator [checkTankLevels] and the logging helpers) and of the two
    subscriber programs (the console-only one and the webhook one), with the
    properties of the specification stated over it.

    JavaScript numbers are IEEE-754 binary64 values; they are modelled with
    the reference operations of [SpecFloat] at precision 53 and maximal
    exponent 1024, so that [<=], [-], [toFixed(2)] and [Number(...)] round
    the way the program's arithmetic does. *)

From Stdlib Require Import ZArith List Bool Lia Lqa String QArith PeanoNat.
From Stdlib Require Import DecimalString.
From Stdlib Require Import Floats.SpecFloat.
Import ListNotations.
Close Scope Q_scope.
Open Scope string_scope.
Open Scope list_scope.
Open Scope nat_scope.

(* ================================================================= *)
(** ** JavaScript numbers *)

Module JSNumber.
Local Open Scope Z_scope.

Definition prec : Z := 53.
Definition emax : Z := 1024.

(** A JavaScript number.  Every value the runtime produces is a valid
    binary64 ([wf] below); the operations are nevertheless total. *)
Definition number : Type := spec_float.

Definition wf (x : number) : Prop := valid_binary prec emax x = true.

(** The number denoted by an integer literal such as [25] or [0]. *)
Definition of_Z (z : Z) : number := binary_normalize prec emax z 0 false.

(** [x <= y], [x < y], [x === y] and [x - y] on numbers. *)
Definition le (x y : number) : bool := SFleb x y.
Definition lt (x y : number) : bool := SFltb x y.
Definition eqb (x y : number) : bool := SFeqb x y.
Definition sub (x y : number) : number := SFsub prec emax x y.

(** The mathematical value of a finite number (0 for the others). *)
Definition F2Q (x : number) : Q :=
  match x with
  | S754_finite s m (Zneg k) => Qmake (cond_Zopp s (Zpos m)) (2 ^ k)%positive
  | S754_finite s m e => inject_Z (cond_Zopp s (Zpos m) * 2 ^ e)
  | _ => 0%Q
  end.

(** The string that [x.toFixed(2)] returns, kept structured:
    - ["NaN"], ["Infinity"], ["-Infinity"] for the non-finite numbers;
    - for [|x| >= 10^21] the exponent notation of [x] itself (the text
      [String(x)], which [Number] reads back as [x]);
    - otherwise the sign, and the integer [n] whose decimal digits are
      printed with the point before the last two: [FxDecimal false 1500]
      is ["15.00"]. *)
Inductive fixed2 : Type :=
| FxNaN
| FxInfinity (neg : bool)
| FxExponent (neg : bool) (m : positive) (e : Z)
| FxDecimal (neg : bool) (n : Z).

(** [x >= 10^21] for [x = m * 2^e]. *)
Definition ge_1e21 (m : positive) (e : Z) : bool :=
  match e with
  | Zneg k => 10 ^ 21 * 2 ^ Zpos k <=? Zpos m
  | _ => 10 ^ 21 <=? Zpos m * 2 ^ e
  end.

(** The integer [n] for which [n / 100 - x] is as close to zero as possible,
    the larger one when there are two, for [x = m * 2^e]. *)
Definition hundredths (m : positive) (e : Z) : Z :=
  match e with
  | Zneg k => (200 * Zpos m + 2 ^ Zpos k) / 2 ^ (Zpos k + 1)
  | _ => 100 * Zpos m * 2 ^ e
  end.

(** [Number.prototype.toFixed] at [fractionDigits = 2]: a negative [x] is
    printed as ["-"] followed by the digits of [-x]; both zeros print as
    ["0.00"]. *)
Definition toFixed2 (x : number) : fixed2 :=
  match x with
  | S754_nan => FxNaN
  | S754_infinity s => FxInfinity s
  | S754_zero _ => FxDecimal false 0
  | S754_finite s m e =>
      if ge_1e21 m e then FxExponent s m e
      else FxDecimal s (hundredths m e)
  end.

(** [Number(str)] on the strings [toFixed] returns: the binary64 nearest to
    the decimal [n / 100] (ties to even), a zero of the printed sign when
    [n = 0]. *)
Definition Number (t : fixed2) : number :=
  match t with
  | FxNaN => S754_nan
  | FxInfinity s => S754_infinity s
  | FxExponent s m e => S754_finite s m e
  | FxDecimal s (Zpos n) =>
      SFdiv prec emax (S754_finite s n 0) (S754_finite false 100 0)
  | FxDecimal s _ => S754_zero s
  end.

(** [0 <= x] as a shape: not NaN, and no negative sign unless zero. *)
Definition nonneg (x : number) : Prop :=
  match x with
  | S754_zero _ => True
  | S754_infinity s | S754_finite s _ _ => s = false
  | S754_nan => False
  end.

(** What [toFixed(2)] prints for a number that is not negative. *)
Definition unsigned (t : fixed2) : Prop :=
  match t with
  | FxNaN => False
  | FxInfinity s | FxExponent s _ _ => s = false
  | FxDecimal s n => s = false /\ 0 <= n
  end.

End JSNumber.

(* ================================================================= *)
(** ** Completions, exceptions and the effect monad *)

(** The exceptions the modelled code can raise. *)
Inductive error : Type :=
| TypeError (message : string)
| SyntaxError (message : string)
| Error (message : string).

Definition error_message (e : error) : string :=
  match e with
  | TypeError m | SyntaxError m | Error m => m
  end.

(** How the evaluation of an expression or statement ends. *)
Inductive completion (A : Type) : Type :=
| Return (a : A)
| Throw (e : error).
Arguments Return {A} a.
Arguments Throw {A} e.

(** Statements act on a world [W] (clock, console, broker, files). *)
Definition M (W A : Type) : Type := W -> completion A * W.

Class Monad (m : Type -> Type) : Type := {
  ret : forall {A}, A -> m A;
  bind : forall {A B}, m A -> (A -> m B) -> m B
}.

#[export] Instance completion_monad : Monad completion := {
  ret := fun A a => Return a;
  bind := fun A B c k =>
    match c with
    | Return a => k a
    | Throw e => Throw e
    end
}.

#[export] Instance M_monad (W : Type) : Monad (M W) := {
  ret := fun A a w => (Return a, w);
  bind := fun A B c k w =>
    match c w with
    | (Return a, w') => k a w'
    | (Throw e, w') => (Throw e, w')
    end
}.

Declare Scope js_scope.
Delimit Scope js_scope with js.
Notation "x <- c ;; k" := (bind c (fun x => k))
  (at level 61, c at next level, right associativity) : js_scope.
Notation "c ;; k" := (bind c (fun _ => k))
  (at level 61, right associativity) : js_scope.
Open Scope js_scope.

(** An expression evaluated inside a statement: it raises or yields its value
    and leaves the world alone. *)
Definition lift {W A} (c : completion A) : M W A := fun w => (c, w).

(** [try { body } catch (error) { handler }]: what [body] did before it
    raised stays done. *)
Definition try_catch {W A} (body : M W A) (handler : error -> M W A) : M W A :=
  fun w =>
    match body w with
    | (Return a, w') => (Return a, w')
    | (Throw e, w') => handler e w'
    end.

(** Reading member [prop] of [o.field] when [o.field] may be [undefined]. *)
Definition read {A} (prop : string) (o : option A) : completion A :=
  match o with
  | Some a => Return a
  | None =>
      Throw (TypeError
        ("Cannot read properties of undefined (reading '" ++ prop ++ "')"))
  end.

(** [Array.prototype.reduce], [map] and [filter] with callbacks that may
    raise: the first exception ends the traversal. *)
Fixpoint reduce {A B} (f : B -> A -> completion B) (l : list A) (acc : B)
  : completion B :=
  match l with
  | [] => Return acc
  | x :: l' => acc' <- f acc x ;; reduce f l' acc'
  end.

Fixpoint map_ {A B} (f : A -> completion B) (l : list A)
  : completion (list B) :=
  match l with
  | [] => Return []
  | x :: l' => y <- f x ;; ys <- map_ f l' ;; Return (y :: ys)
  end.

Fixpoint filter_ {A} (f : A -> completion bool) (l : list A)
  : completion (list A) :=
  match l with
  | [] => Return []
  | x :: l' =>
      b <- f x ;; ys <- filter_ f l' ;;
      Return (if b : bool then x :: ys else ys)
  end.

(** The first argument of [logToConsole]. *)
Inductive logType : Type := INFO | SUCCESS | WARNING | ERROR.

(* ================================================================= *)
(** ** The publisher service, [src/publisher.js] *)

Module Publisher.
Import JSNumber.

Definition MQTT_TOPIC : string := "tankscape/tanks".
Definition MQTT_ALERT_TOPIC : string := "tankscape/alerts".

(** The two module-level threshold constants, gathered so that what depends
    on which of them can be stated. *)
Record config : Type := {
  LOW_LEVEL_THRESHOLD : number;
  HIGH_LEVEL_THRESHOLD : number
}.

(** [const LOW_LEVEL_THRESHOLD = 25; const HIGH_LEVEL_THRESHOLD = 90;] *)
Definition constants : config :=
  {| LOW_LEVEL_THRESHOLD := of_Z 25; HIGH_LEVEL_THRESHOLD := of_Z 90 |}.

(** *** The request body *)

(** Members of a JSON object the program never names (key and JSON text). *)
Definition members : Type := list (string * string).

Record tank : Type := {
  tank_id : string;
  tank_name : string;
  tank_level : number;
  tank_lastUpdated : string;
  tank_rest : members
}.

(** [room_tanks = None] is a room object without a [tanks] member. *)
Record room : Type := {
  room_id : string;
  room_tanks : option (list tank);
  room_rest : members
}.

(** [data_rooms = None] is a body without a [rooms] member. *)
Record snapshot : Type := {
  data_timestamp : string;
  data_rooms : option (list room);
  data_rest : members
}.

(** *** The alert *)

(** One element of [tanks] in a room entry. *)
Record lowTank : Type := {
  id : string;
  name : string;
  level : number;
  lastUpdated : string;
  threshold : number;
  deficit : number
}.

(** One element pushed on [lowLevelTanks]. *)
Record roomEntry : Type := {
  roomId : string;
  totalTanks : nat;
  lowLevelTanks : nat;
  tanks : list lowTank
}.

Record alertDetails : Type := {
  details_timestamp : string;
  totalRooms : nat;
  details_totalTanks : nat;
  rooms : list roomEntry
}.

Record alertData : Type := {
  event : string;
  timestamp : string;
  details : alertDetails;
  mqttTopic : string
}.

(** *** The world the service acts on *)

(** The value handed to [JSON.stringify] before [client.publish]. *)
Inductive payload : Type :=
| SnapshotJSON (data : snapshot)
| AlertJSON (alert : alertData).

(** The value handed to [logAlert]. *)
Inductive logRecord : Type :=
| AlertRecord (alert : alertData)
| ErrorRecord (timestamp : string) (e : error).

(** The optional third argument of [logToConsole]. *)
Inductive logData : Type :=
| ReceivedData (timestamp : string) (totalRooms totalTanks : nat)
| LowLevelData (totalLowLevelTanks : nat)
    (tanks : list (string * string * number))
| ErrorData (e : error).

(** One call of [console.log]. *)
Inductive consoleLine : Type :=
| Banner (type : logType) (timestamp message : string)
| Dump (type : logType) (data : logData).

(** The argument of [res.status(code).json(...)]. *)
Inductive body : Type :=
| MessageBody (message : string)
| ErrorBody (error : string).

Record world : Type := {
  clock : nat -> string;  (* what the n-th [new Date().toISOString()] reads *)
  dates : nat;            (* how many [new Date()] were evaluated *)
  console : list consoleLine;
  broker : list (string * payload);       (* [client.publish] calls *)
  log_file : list (string * logRecord);   (* lines appended to the alert log *)
  response : option (nat * body)
}.

Definition new_Date : M world string := fun w =>
  (Return (clock w (dates w)),
   {| clock := clock w; dates := S (dates w); console := console w;
      broker := broker w; log_file := log_file w; response := response w |}).

Definition console_log (line : consoleLine) : M world unit := fun w =>
  (Return tt,
   {| clock := clock w; dates := dates w; console := console w ++ [line];
      broker := broker w; log_file := log_file w; response := response w |}).

Definition client_publish (topic : string) (p : payload) : M world unit :=
  fun w =>
  (Return tt,
   {| clock := clock w; dates := dates w; console := console w;
      broker := broker w ++ [(topic, p)]; log_file := log_file w;
      response := response w |}).

Definition appendFile (stamp : string) (r : logRecord) : M world unit :=
  fun w =>
  (Return tt,
   {| clock := clock w; dates := dates w; console := console w;
      broker := broker w; log_file := log_file w ++ [(stamp, r)];
      response := response w |}).

Definition res_status_json (code : nat) (b : body) : M world unit := fun w =>
  (Return tt,
   {| clock := clock w; dates := dates w; console := console w;
      broker := broker w; log_file := log_file w;
      response := Some (code, b) |}).

(** [function logAlert(data)] *)
Definition logAlert (data : logRecord) : M world unit :=
  stamp <- new_Date ;;
  appendFile stamp data.

(** [function logToConsole(type, message, data = null)]; every [logData] is
    an object, hence truthy. *)
Definition logToConsole (type : logType) (message : string)
    (data : option logData) : M world unit :=
  timestamp <- new_Date ;;
  console_log (Banner type timestamp message) ;;
  match data with
  | Some d => console_log (Dump type d)
  | None => ret tt
  end.

(** [(sum, room) => sum + room.tanks.length] *)
Definition add_tanks (sum : nat) (room : room) : completion nat :=
  tanks <- read "length" (room_tanks room) ;;
  Return (sum + List.length tanks).

Section Program.
Variable cfg : config.

(** [tank => tank.level <= LOW_LEVEL_THRESHOLD] *)
Definition isLow (tank : tank) : bool :=
  le (tank_level tank) (LOW_LEVEL_THRESHOLD cfg).

(** The object built for a tank of [lowTanks] (lines 90-97). *)
Definition lowTankOf (tank : tank) : lowTank :=
  {| id := tank_id tank;
     name := tank_name tank;
     level := tank_level tank;
     lastUpdated := tank_lastUpdated tank;
     threshold := LOW_LEVEL_THRESHOLD cfg;
     deficit :=
       Number (toFixed2 (sub (LOW_LEVEL_THRESHOLD cfg) (tank_level tank))) |}.

(** The callback of the [reduce] of lines 82-101; [acc.push(x)] is
    [acc ++ [x]]. *)
Definition pushLowRoom (acc : list roomEntry) (room : room)
  : completion (list roomEntry) :=
  tanks <- read "filter" (room_tanks room) ;;
  let lowTanks := filter isLow tanks in
  if 0 <? List.length lowTanks then
    Return (acc ++ [ {| roomId := room_id room;
                        totalTanks := List.length tanks;
                        lowLevelTanks := List.length lowTanks;
                        tanks := map lowTankOf lowTanks |} ])
  else Return acc.

(** [const lowLevelTanks = rooms.reduce(..., [])] *)
Definition lowLevelTanksOf (rooms : list room) : completion (list roomEntry) :=
  reduce pushLowRoom rooms [].

(** [function checkTankLevels(rooms)] *)
Definition checkTankLevels (rooms : list room) : M world unit :=
  lowLevelTanks <- lift (lowLevelTanksOf rooms) ;;
  if 0 <? List.length lowLevelTanks then
    timestamp1 <- new_Date ;;
    timestamp2 <- new_Date ;;
    total <- lift (reduce add_tanks rooms 0) ;;
    let alert :=
      {| event := "LOW_LEVEL_ALERT";
         timestamp := timestamp1;
         details := {| details_timestamp := timestamp2;
                       totalRooms := List.length rooms;
                       details_totalTanks := total;
                       rooms := lowLevelTanks |};
         mqttTopic := MQTT_ALERT_TOPIC |} in
    client_publish MQTT_ALERT_TOPIC (AlertJSON alert) ;;
    logAlert (AlertRecord alert)
  else ret tt.

(** [room => ({ ...room, tanks: room.tanks.filter(...) })] *)
Definition keepLowTanks (room : room) : completion Publisher.room :=
  tanks <- read "filter" (room_tanks room) ;;
  Return {| room_id := room_id room;
            room_tanks := Some (filter isLow tanks);
            room_rest := room_rest room |}.

(** [room => room.tanks.length > 0] *)
Definition hasTanks (room : room) : completion bool :=
  tanks <- read "length" (room_tanks room) ;;
  Return (0 <? List.length tanks).

(** [room => room.tanks.map(tank => ({ roomId, tankId, level }))] *)
Definition tankRefs (room : room)
  : completion (list (string * string * number)) :=
  tanks <- read "map" (room_tanks room) ;;
  Return (map (fun tank => (room_id room, tank_id tank, tank_level tank))
              tanks).

(** The body of the [try] block of the handler. *)
Definition post_publish_try (data : snapshot) : M world unit :=
  received <- lift (rooms <- read "length" (data_rooms data) ;;
                    total <- reduce add_tanks rooms 0 ;;
                    Return (ReceivedData (data_timestamp data)
                                         (List.length rooms) total)) ;;
  logToConsole INFO "Received tank data:" (Some received) ;;
  client_publish MQTT_TOPIC (SnapshotJSON data) ;;
  logToConsole SUCCESS ("Published data to " ++ MQTT_TOPIC)%string None ;;
  lowRooms <- lift (rooms <- read "map" (data_rooms data) ;;
                    kept <- map_ keepLowTanks rooms ;;
                    filter_ hasTanks kept) ;;
  (if 0 <? List.length lowRooms then
     warning <- lift (total <- reduce add_tanks lowRooms 0 ;;
                      refs <- map_ tankRefs lowRooms ;;
                      Return (LowLevelData total (List.concat refs))) ;;
     logToConsole WARNING "Low level tanks detected:" (Some warning) ;;
     rooms <- lift (read "reduce" (data_rooms data)) ;;
     checkTankLevels rooms
   else ret tt) ;;
  res_status_json 200 (MessageBody "Data published successfully").

(** The [catch (error)] block of the handler. *)
Definition post_publish_catch (e : error) : M world unit :=
  logToConsole ERROR "Error publishing data:" (Some (ErrorData e)) ;;
  timestamp <- new_Date ;;
  logAlert (ErrorRecord timestamp e) ;;
  res_status_json 500 (ErrorBody "Failed to publish data").

(** [app.post('/publish', (req, res) => { ... })] on [req.body = data]. *)
Definition post_publish (data : snapshot) : M world unit :=
  try_catch (post_publish_try data) post_publish_catch.

End Program.

(** *** Vocabulary of the properties *)

(** The body has a [rooms] array and every room a [tanks] array. *)
Definition well_formed_rooms (rooms : list room) : bool :=
  forallb (fun r => match room_tanks r with Some _ => true | None => false end)
          rooms.

Definition structurally_valid (data : snapshot) : bool :=
  match data_rooms data with
  | Some rooms => well_formed_rooms rooms
  | None => false
  end.

(** The tanks of a room, none when the member is missing. *)
Definition tanks_of (r : room) : list tank :=
  match room_tanks r with Some ts => ts | None => [] end.

(** The room has a tank at or below the low threshold. *)
Definition qualifies (cfg : config) (r : room) : bool :=
  existsb (isLow cfg) (tanks_of r).

(** The entry a qualifying room contributes. *)
Definition entryOf (cfg : config) (r : room) : roomEntry :=
  {| roomId := room_id r;
     totalTanks := List.length (tanks_of r);
     lowLevelTanks := List.length (filter (isLow cfg) (tanks_of r));
     tanks := map (lowTankOf cfg) (filter (isLow cfg) (tanks_of r)) |}.

(** The alerts among the published messages. *)
Definition alerts (w : world) : list payload :=
  map snd (filter (fun m => String.eqb (fst m) MQTT_ALERT_TOPIC) (broker w)).

(** The messages on the raw-data topic. *)
Definition raw_data (w : world) : list payload :=
  map snd (filter (fun m => String.eqb (fst m) MQTT_TOPIC) (broker w)).

(** An alert with its two clock readings erased. *)
Definition untimed (a : alertData) : alertData :=
  {| event := event a;
     timestamp := "";
     details := {| details_timestamp := "";
                   totalRooms := totalRooms (details a);
                   details_totalTanks := details_totalTanks (details a);
                   rooms := rooms (details a) |};
     mqttTopic := mqttTopic a |}.

(** Every tank level in the body is a binary64 value. *)
Definition levels_wf (rooms : list room) : Prop :=
  forall r t, In r rooms -> In t (tanks_of r) -> wf (tank_level t).

(** The messages published between the worlds [w] and [w']. *)
Definition emitted (w w' : world) : list (string * payload) :=
  skipn (List.length (broker w)) (broker w').

(** A message with the clock readings of an alert erased. *)
Definition untimed_message (m : string * payload) : string * payload :=
  match m with
  | (topic, AlertJSON a) => (topic, AlertJSON (untimed a))
  | other => other
  end.

(** The number of tanks of all rooms. *)
Definition count_tanks (rooms : list room) : nat :=
  list_sum (map (fun r => List.length (tanks_of r)) rooms).

(** The alert for [rooms] with clock readings [t1] and [t2]. *)
Definition alertOf (cfg : config) (rooms : list room) (t1 t2 : string)
  : alertData :=
  {| event := "LOW_LEVEL_ALERT";
     timestamp := t1;
     details := {| details_timestamp := t2;
                   totalRooms := List.length rooms;
                   details_totalTanks := count_tanks rooms;
                   rooms := map (entryOf cfg) (filter (qualifies cfg) rooms) |};
     mqttTopic := MQTT_ALERT_TOPIC |}.

(** The world after an alert for [rooms] was published and logged. *)
Definition alerted (cfg : config) (rooms : list room) (w : world) : world :=
  let alert :=
    alertOf cfg rooms (clock w (dates w)) (clock w (S (dates w))) in
  {| clock := clock w;
     dates := S (S (S (dates w)));
     console := console w;
     broker := broker w ++ [(MQTT_ALERT_TOPIC, AlertJSON alert)];
     log_file := log_file w ++ [(clock w (S (S (dates w))), AlertRecord alert)];
     response := response w |}.

(** A room with its tanks above the low threshold dropped. *)
Definition keepLow (cfg : config) (r : room) : room :=
  {| room_id := room_id r;
     room_tanks := Some (filter (isLow cfg) (tanks_of r));
     room_rest := room_rest r |}.

(** The rooms of [lowLevelData]: each with its low tanks only, those left
    without a tank dropped. *)
Definition lowRooms (cfg : config) (rooms : list room) : list room :=
  filter (fun r => 0 <? List.length (tanks_of r)) (map (keepLow cfg) rooms).

(** The world after the handler accepted [data], whose rooms are [rooms]. *)
Definition accepted (cfg : config) (data : snapshot) (rooms : list room)
    (w : world) : world :=
  let now n := clock w (n + dates w) in
  let low := existsb (qualifies cfg) rooms in
  let alert := alertOf cfg rooms (now 3) (now 4) in
  let console3 :=
    ((console w ++ [Banner INFO (now 0) "Received tank data:"]) ++
      [Dump INFO (ReceivedData (data_timestamp data) (List.length rooms)
                               (count_tanks rooms))]) ++
    [Banner SUCCESS (now 1) "Published data to tankscape/tanks"] in
  let warning :=
    LowLevelData
      (count_tanks (lowRooms cfg rooms))
      (List.concat
         (map (fun r => map (fun t => (room_id r, tank_id t, tank_level t))
                            (tanks_of r))
              (lowRooms cfg rooms))) in
  let broker1 := broker w ++ [(MQTT_TOPIC, SnapshotJSON data)] in
  {| clock := clock w;
     dates := (if low then 6 else 2) + dates w;
     console :=
       if low then
         (console3 ++ [Banner WARNING (now 2) "Low level tanks detected:"]) ++
         [Dump WARNING warning]
       else console3;
     broker :=
       if low then broker1 ++ [(MQTT_ALERT_TOPIC, AlertJSON alert)]
       else broker1;
     log_file :=
       if low then log_file w ++ [(now 5, AlertRecord alert)]
       else log_file w;
     response := Some (200, MessageBody "Data published successfully") |}.

(** The world after the handler caught [e] before anything else was done. *)
Definition refused (e : error) (w : world) : world :=
  {| clock := clock w;
     dates := 3 + dates w;
     console :=
       (console w ++
        [Banner ERROR (clock w (dates w)) "Error publishing data:"]) ++
       [Dump ERROR (ErrorData e)];
     broker := broker w;
     log_file :=
       log_file w ++
       [(clock w (2 + dates w), ErrorRecord (clock w (1 + dates w)) e)];
     response := Some (500, ErrorBody "Failed to publish data") |}.

(** What an entry of an alert satisfies. *)
Definition entry_ok (e : roomEntry) : Prop :=
  lowLevelTanks e = List.length (tanks e) /\
  1 <= lowLevelTanks e <= totalTanks e /\
  forall t, In t (tanks e) ->
    le (level t) (of_Z 25) = true /\
    threshold t = of_Z 25 /\
    le (of_Z 0) (deficit t) = true.

End Publisher.

(* ================================================================= *)
(** ** The alert subscribers *)

(** Two programs subscribe to [tankscape/alerts]: one prints each alert, the
    other prints it and forwards it to a webhook.  Their [message] handlers
    differ by the call of [sendWebhook] only. *)

Module Subscriber.
Import JSNumber.

Definition MQTT_TOPICS : list string := ["tankscape/alerts"].
Definition WEBHOOK_URL : string := "your-webhook-url".

Inductive program : Type := ConsoleOnly | WebhookForwarder.

(** What [JSON.parse] returns. *)
#[warnings="-register-all"]
Inductive json : Type :=
| JNull
| JBool (b : bool)
| JNumber (x : number)
| JString (s : string)
| JArray (items : list json)
| JObject (members : list (string * json)).

(** The third argument of [logToConsole]: a parsed value or a string. *)
Inductive logData : Type :=
| Parsed (v : json)
| Text (s : string).

(** [if (data)]: ToBoolean of the argument. *)
Definition truthy (data : logData) : bool :=
  match data with
  | Parsed JNull => false
  | Parsed (JBool b) => b
  | Parsed (JNumber (S754_zero _ | S754_nan)) => false
  | Parsed (JString s) | Text s => negb (String.eqb s "")
  | Parsed _ => true
  end.

(** One call of [console.log]. *)
Inductive consoleLine : Type :=
| Banner (type : logType) (timestamp message : string)
| Dump (type : logType) (data : logData).

Record world : Type := {
  clock : nat -> string;
  dates : nat;
  console : list consoleLine;
  posts : list (string * json)     (* [fetch(url, { method: 'POST', body })] *)
}.

Definition new_Date : M world string := fun w =>
  (Return (clock w (dates w)),
   {| clock := clock w; dates := S (dates w); console := console w;
      posts := posts w |}).

Definition console_log (line : consoleLine) : M world unit := fun w =>
  (Return tt,
   {| clock := clock w; dates := dates w; console := console w ++ [line];
      posts := posts w |}).

Definition fetch_post (url : string) (data : json) : M world unit := fun w =>
  (Return tt,
   {| clock := clock w; dates := dates w; console := console w;
      posts := posts w ++ [(url, data)] |}).

Definition throw {A} (e : error) : M world A := fun w => (Throw e, w).

(** [function logToConsole(type, message, data)] *)
Definition logToConsole (type : logType) (message : string)
    (data : option logData) : M world unit :=
  timestamp <- new_Date ;;
  console_log (Banner type timestamp message) ;;
  match data with
  | Some d => if truthy d then console_log (Dump type d) else ret tt
  | None => ret tt
  end.

(** How the promise of [fetch] settles. *)
Inductive settlement : Type :=
| Rejected (e : error)
| Responded (status : nat).

(** [response.ok] *)
Definition ok (status : nat) : bool := (200 <=? status) && (status <=? 299).

Definition status_text (status : nat) : string :=
  NilZero.string_of_uint (Nat.to_uint status).

(** [async function sendWebhook(data)] up to its [await]: the request is
    issued. *)
Definition sendWebhook (data : json) : M world unit :=
  fetch_post WEBHOOK_URL data.

(** [sendWebhook] from its [await] on, once the request has settled. *)
Definition sendWebhook_resume (r : settlement) : M world unit :=
  try_catch
    (match r with
     | Rejected e => throw e
     | Responded status =>
         if ok status
         then logToConsole SUCCESS "Webhook sent successfully" None
         else throw (Error ("HTTP error! status: " ++ status_text status))
     end)
    (fun error =>
       logToConsole ERROR "Failed to send webhook:"
                    (Some (Text (error_message error)))).

(** What the event loop delivers to the program. *)
Inductive event : Type :=
| Message (topic message : string)
| Settled (r : settlement).

Section Consumer.
(** [JSON.parse]: the parsed value, or the [SyntaxError] it raises. *)
Variable JSON_parse : string -> completion json.
Variable p : program.

(** [client.on('message', (topic, message) => { ... })], with [message]
    standing for [message.toString()]. *)
Definition on_message (topic message : string) : M world unit :=
  try_catch
    (data <- lift (JSON_parse message) ;;
     logToConsole INFO ("Received message on " ++ topic ++ ":")
                  (Some (Parsed data)) ;;
     match p with
     | ConsoleOnly => ret tt
     | WebhookForwarder => sendWebhook data
     end)
    (fun error =>
       logToConsole ERROR ("Failed to parse message on " ++ topic ++ ":")
                    (Some (Text message))).

Definition dispatch (ev : event) : M world unit :=
  match ev with
  | Message topic message => on_message topic message
  | Settled r => sendWebhook_resume r
  end.

(** The events are handled in turn; an exception that leaves a handler ends
    the process. *)
Fixpoint run (evs : list event) : M world unit :=
  match evs with
  | [] => ret tt
  | ev :: rest => dispatch ev ;; run rest
  end.

End Consumer.

(** A parser that, like [JSON.parse], rejects the empty text and reads
    [null]; it reads nothing else. *)
Definition parse_null (s : string) : completion json :=
  if String.eqb s "" then Throw (SyntaxError "Unexpected end of JSON input")
  else if String.eqb s "null" then Return JNull
  else Throw (SyntaxError "Unexpected token").

(** The world after a message that [JSON.parse] rejected. *)
Definition parse_failed (topic message : string) (w : world) : world :=
  let console1 :=
    console w ++
    [Banner ERROR (clock w (dates w))
            ("Failed to parse message on " ++ topic ++ ":")] in
  {| clock := clock w;
     dates := S (dates w);
     console := if String.eqb message "" then console1
                else console1 ++ [Dump ERROR (Text message)];
     posts := posts w |}.

End Subscriber.

(* ================================================================= *)
(** ** Sample inputs *)

Module Examples.
Import JSNumber.

(** A clock whose n-th reading is the numeral of [n]. *)
Definition clock0 (n : nat) : string :=
  NilZero.string_of_uint (Nat.to_uint n).

Definition world0 : Publisher.world :=
  {| Publisher.clock := clock0; Publisher.dates := 0;
     Publisher.console := []; Publisher.broker := [];
     Publisher.log_file := []; Publisher.response := None |}.

Definition tank_at (id : string) (level : Z) : Publisher.tank :=
  {| Publisher.tank_id := id;
     Publisher.tank_name := "Tank " ++ id;
     Publisher.tank_level := of_Z level;
     Publisher.tank_lastUpdated := "2025-01-01T00:00:00.000Z";
     Publisher.tank_rest := [] |}.

(** A room with one tank at 10 and one at 60, and a room with one at 80. *)
Definition roomA : Publisher.room :=
  {| Publisher.room_id := "A";
     Publisher.room_tanks := Some [tank_at "A1" 10; tank_at "A2" 60];
     Publisher.room_rest := [("name", "Pump hall")] |}.

Definition roomB : Publisher.room :=
  {| Publisher.room_id := "B";
     Publisher.room_tanks := Some [tank_at "B1" 80];
     Publisher.room_rest := [] |}.

Definition snapshot0 : Publisher.snapshot :=
  {| Publisher.data_timestamp := "2025-01-01T00:00:01.000Z";
     Publisher.data_rooms := Some [roomA; roomB];
     Publisher.data_rest := [] |}.

(** A body without [rooms]. *)
Definition no_rooms : Publisher.snapshot :=
  {| Publisher.data_timestamp := "2025-01-01T00:00:01.000Z";
     Publisher.data_rooms := None;
     Publisher.data_rest := [] |}.

Definition console0 : Subscriber.world :=
  {| Subscriber.clock := clock0; Subscriber.dates := 0;
     Subscriber.console := []; Subscriber.posts := [] |}.

End Examples.

(* ================================================================= *)
(** ** Vocabulary for what a run adds to the world *)

Module Trace.

(** The rooms of a body, none when the member is missing. *)
Definition rooms_of (data : Publisher.snapshot) : list Publisher.room :=
  match Publisher.data_rooms data with Some rooms => rooms | None => [] end.

(** All tanks of all rooms, in order. *)
Definition all_tanks (rooms : list Publisher.room) : list Publisher.tank :=
  List.concat (map Publisher.tanks_of rooms).

(** The lines appended to the alert log between [w] and [w']. *)
Definition logged (w w' : Publisher.world)
  : list (string * Publisher.logRecord) :=
  skipn (List.length (Publisher.log_file w)) (Publisher.log_file w').

(** The [console.log] calls made between [w] and [w']. *)
Definition printed (w w' : Publisher.world) : list Publisher.consoleLine :=
  skipn (List.length (Publisher.console w)) (Publisher.console w').

(** The alert of a request on [rooms] that starts in [w], if there is one. *)
Definition alert_of_request (rooms : list Publisher.room)
    (w : Publisher.world) : list Publisher.alertData :=
  if existsb (Publisher.qualifies Publisher.constants) rooms
  then [Publisher.alertOf Publisher.constants rooms
          (Publisher.clock w (3 + Publisher.dates w))
          (Publisher.clock w (4 + Publisher.dates w))]
  else [].

(** The number is a zero or a finite non-zero binary64. *)
Definition finite (x : JSNumber.number) : Prop :=
  match x with
  | S754_zero _ | S754_finite _ _ _ => True
  | S754_infinity _ | S754_nan => False
  end.

(** The value [m * 2^e] is at most 25, in integers. *)
Definition at_most_25 (m : positive) (e : Z) : Prop :=
  match e with
  | Zneg k => (Zpos m <= 25 * 2 ^ Zpos k)%Z
  | _ => (Zpos m * 2 ^ e <= 25)%Z
  end.

(** A number that is zero or positive with a value of at most 25. *)
Definition from_0_to_25 (x : JSNumber.number) : Prop :=
  match x with
  | S754_zero _ => True
  | S754_finite false m e => at_most_25 m e
  | _ => False
  end.

(** A mantissa under rounding at exponent [e <= 0] stays at or below 25,
    and strictly below it while digits that are not zero were shifted
    out. *)
Definition below_25 (e : Z) (mrs : shr_record) : Prop :=
  (0 <= shr_m mrs <= 25 * 2 ^ (- e))%Z /\
  (loc_of_shr_record mrs <> loc_Exact -> (shr_m mrs < 25 * 2 ^ (- e))%Z).

(** A mantissa under rounding at exponent [e <= -48] stays between [lo]
    and [hi] units of [2^-48], and strictly below [hi] while digits that are
    not zero were shifted out. *)
Definition on_grid (lo hi e : Z) (mrs : shr_record) : Prop :=
  (lo * 2 ^ (-48 - e) <= shr_m mrs <= hi * 2 ^ (-48 - e))%Z /\
  (loc_of_shr_record mrs <> loc_Exact ->
   (shr_m mrs < hi * 2 ^ (-48 - e))%Z).

(** A number that is zero or positive, between [lo] and [hi] units of
    [2^-48]. *)
Definition between_units (lo hi : Z) (x : JSNumber.number) : Prop :=
  match x with
  | S754_zero _ => (lo <= 0)%Z
  | S754_finite false m e =>
      (e <= -48 /\
       lo * 2 ^ (-48 - e) <= Zpos m <= hi * 2 ^ (-48 - e))%Z
  | _ => False
  end.

(** The unit [2^-48], the spacing of the binary64 numbers from 16 to 32. *)
Definition unit48 : Q := Qmake 1 (2 ^ 48)%positive.

(** The binary64 [4925812092436481 * 2^-50], written
    4.375000000000001. *)
Definition near_tie_level : JSNumber.number :=
  S754_finite false 4925812092436481 (-50).

(** A tank whose reading is [near_tie_level]. *)
Definition near_tie_tank : Publisher.tank :=
  {| Publisher.tank_id := "T1";
     Publisher.tank_name := "Tank T1";
     Publisher.tank_level := near_tie_level;
     Publisher.tank_lastUpdated := "2025-01-01T00:00:00.000Z";
     Publisher.tank_rest := [] |}.

(** The same printed text. *)
Definition same_fixed2 (s t : JSNumber.fixed2) : bool :=
  match s, t with
  | JSNumber.FxNaN, JSNumber.FxNaN => true
  | JSNumber.FxInfinity a, JSNumber.FxInfinity b => Bool.eqb a b
  | JSNumber.FxExponent a m e, JSNumber.FxExponent b m' e' =>
      Bool.eqb a b && Pos.eqb m m' && Z.eqb e e'
  | JSNumber.FxDecimal a n, JSNumber.FxDecimal b n' =>
      Bool.eqb a b && Z.eqb n n'
  | _, _ => false
  end.

(** The number that the decimal numeral of [k] hundredths denotes, such as
    12.34 for [k = 1234]. *)
Definition hundredth (k : nat) : JSNumber.number :=
  JSNumber.Number (JSNumber.FxDecimal false (Z.of_nat k)).

(** [hundredth k] prints with two decimals as [k] hundredths again. *)
Definition prints_back (k : nat) : bool :=
  same_fixed2 (JSNumber.toFixed2 (hundredth k))
              (JSNumber.FxDecimal false (Z.of_nat k)).

(** At level [hundredth k] the reading is low and [25 - level] prints as
    [2500 - k] hundredths. *)
Definition deficit_exact (k : nat) : bool :=
  JSNumber.le (hundredth k) (JSNumber.of_Z 25) &&
  same_fixed2
    (JSNumber.toFixed2 (JSNumber.sub (JSNumber.of_Z 25) (hundredth k)))
    (JSNumber.FxDecimal false (Z.of_nat (2500 - k))).

(** The text of the [TypeError] raised by [undefined.length]. *)
Definition undefined_length : error :=
  TypeError "Cannot read properties of undefined (reading 'length')".

(** The values of the messages of [evs] that [JSON_parse] accepts. *)
Definition parsed (JSON_parse : string -> completion Subscriber.json)
    (evs : list Subscriber.event) : list Subscriber.json :=
  flat_map (fun ev =>
              match ev with
              | Subscriber.Message _ message =>
                  match JSON_parse message with
                  | Return v => [v]
                  | Throw _ => []
                  end
              | Subscriber.Settled _ => []
              end) evs.

Definition is_banner (line : Subscriber.consoleLine) : bool :=
  match line with
  | Subscriber.Banner _ _ _ => true
  | Subscriber.Dump _ _ => false
  end.

(** The console lines by which a settled webhook request is reported. *)
Definition settlement_report (r : Subscriber.settlement) (stamp : string)
  : list Subscriber.consoleLine :=
  let failed message :=
    Subscriber.Banner ERROR stamp "Failed to send webhook:" ::
    (if String.eqb message "" then []
     else [Subscriber.Dump ERROR (Subscriber.Text message)]) in
  match r with
  | Subscriber.Rejected e => failed (error_message e)
  | Subscriber.Responded status =>
      if Subscriber.ok status
      then [Subscriber.Banner SUCCESS stamp "Webhook sent successfully"]
      else failed ("HTTP error! status: " ++
                   Subscriber.status_text status)%string
  end.

End Trace.

(* ================================================================= *)
(** ** Facts about JavaScript numbers *)

Module JSNumberFacts.
Import JSNumber.
Local Open Scope Z_scope.

(** *** Comparison *)

Lemma compare_cont_antisym (m1 m2 : positive) :
  Pos.compare_cont Eq m1 m2 = CompOpp (Pos.compare_cont Eq m2 m1).
Proof. apply Pos.compare_antisym. Qed.

Lemma SFcompare_antisym (x y : number) :
  SFcompare x y = option_map CompOpp (SFcompare y x).
Proof.
  destruct x as [sx|sx| |sx mx ex], y as [sy|sy| |sy my ey]; simpl;
    try reflexivity;
    try (destruct sx; reflexivity);
    try (destruct sy; reflexivity);
    try (destruct sx, sy; reflexivity).
  destruct sx, sy; try reflexivity;
    rewrite (Z.compare_antisym ey ex);
    destruct (ey ?= ex); simpl; try reflexivity;
    rewrite (compare_cont_antisym mx my);
    destruct (Pos.compare_cont Eq my mx); reflexivity.
Qed.

Lemma eqb_le (x y : number) : eqb x y = true -> le x y = true.
Proof.
  unfold eqb, le, SFeqb, SFleb.
  destruct (SFcompare x y) as [[ | | ]|]; congruence.
Qed.

Lemma lt_not_le (x y : number) : lt y x = true -> le x y = false.
Proof.
  unfold lt, le, SFltb, SFleb. rewrite (SFcompare_antisym x y).
  destruct (SFcompare y x) as [[ | | ]|]; simpl; congruence.
Qed.

Lemma nonneg_le_zero (x : number) : nonneg x <-> le (of_Z 0) x = true.
Proof.
  destruct x as [s|s| |s m e]; simpl; unfold le, SFleb; simpl;
    try destruct s; intuition congruence.
Qed.

(** *** Rounding keeps the sign *)

Section Rounding.
Variables prec emax : Z.

Lemma shr_1_nonneg mrs : 0 <= shr_m mrs -> 0 <= shr_m (shr_1 mrs).
Proof.
  destruct mrs as [m r s]; simpl.
  destruct m as [|[q|q|]|q]; simpl; lia.
Qed.

Lemma iter_shr_1_nonneg n mrs :
  0 <= shr_m mrs -> 0 <= shr_m (iter_pos shr_1 n mrs).
Proof.
  revert mrs.
  induction n as [n IH|n IH|]; intros mrs H; simpl.
  - apply IH, IH, shr_1_nonneg, H.
  - apply IH, IH, H.
  - apply shr_1_nonneg, H.
Qed.

Lemma shr_fexp_nonneg m e l :
  0 <= m -> 0 <= shr_m (fst (shr_fexp prec emax m e l)).
Proof.
  intros H. unfold shr_fexp, shr.
  assert (H0 : 0 <= shr_m (shr_record_of_loc m l))
    by (destruct l as [|[ | | ]]; exact H).
  destruct (fexp prec emax (Zdigits2 m + e) - e); simpl; try exact H0.
  apply iter_shr_1_nonneg, H0.
Qed.

Lemma round_nearest_even_nonneg m l : 0 <= m -> 0 <= round_nearest_even m l.
Proof.
  intros H. destruct l as [|[ | | ]]; simpl; try lia.
  destruct (Z.even m); lia.
Qed.

Lemma binary_round_aux_nonneg mx ex lx :
  0 <= mx -> nonneg (binary_round_aux prec emax false mx ex lx).
Proof.
  intros H. unfold binary_round_aux.
  pose proof (shr_fexp_nonneg mx ex lx H) as H1.
  destruct (shr_fexp prec emax mx ex lx) as [mrs' e']. simpl in H1.
  pose proof (round_nearest_even_nonneg _ (loc_of_shr_record mrs') H1) as H2.
  pose proof (shr_fexp_nonneg _ e' loc_Exact H2) as H3.
  destruct (shr_fexp prec emax _ e' loc_Exact) as [mrs'' e'']. simpl in H3.
  destruct (shr_m mrs''); simpl; try lia; trivial.
  destruct (e'' <=? emax - prec); reflexivity.
Qed.

Lemma binary_normalize_nonneg m e :
  0 <= m -> nonneg (binary_normalize prec emax m e false).
Proof.
  intros H. destruct m as [|q|q]; simpl; try lia; trivial.
  unfold binary_round.
  destruct (shl_align q e _) as [mz ez].
  apply binary_round_aux_nonneg. lia.
Qed.

End Rounding.

(** *** Mantissas *)

Lemma iter_xO (d m : positive) :
  Zpos (Pos.iter xO m d) = Zpos m * 2 ^ Zpos d.
Proof.
  rewrite <- Pos2Z.inj_pow.
  induction d as [|d IH] using Pos.peano_ind.
  - simpl. lia.
  - rewrite Pos.iter_succ, Pos.pow_succ_r. lia.
Qed.

Lemma shl_align_fst (mx : positive) (ex ex' : Z) :
  ex' <= ex -> Zpos (fst (shl_align mx ex ex')) = Zpos mx * 2 ^ (ex - ex').
Proof.
  intros H. unfold shl_align.
  destruct (ex' - ex) as [|d|d] eqn:E; try lia.
  - replace (ex - ex') with 0 by lia. simpl. lia.
  - simpl. rewrite iter_xO. replace (ex - ex') with (Zpos d) by lia.
    reflexivity.
Qed.

Lemma digits2_pos_bound (m : positive) : Zpos m < 2 ^ Zpos (digits2_pos m).
Proof.
  induction m as [m IH|m IH|]; simpl digits2_pos.
  - rewrite Pos2Z.inj_succ, Z.pow_succ_r by lia. lia.
  - rewrite Pos2Z.inj_succ, Z.pow_succ_r by lia. lia.
  - reflexivity.
Qed.

Lemma wf_mantissa s m e : wf (S754_finite s m e) -> Zpos m < 2 ^ 53.
Proof.
  unfold wf, valid_binary, bounded, canonical_mantissa, fexp, emin, prec, emax.
  intros H. apply andb_prop in H. destruct H as [H _].
  apply Z.eqb_eq in H.
  pose proof (digits2_pos_bound m) as B.
  assert (D : Zpos (digits2_pos m) <= 53) by lia.
  eapply Z.lt_le_trans; [exact B|].
  apply Z.pow_le_mono_r; lia.
Qed.

(** *** The low threshold and the deficit *)

Lemma of_Z_25 : of_Z 25 = S754_finite false 7036874417766400 (-48).
Proof. vm_compute. reflexivity. Qed.

(** A binary64 below a positive number of exponent [-48] whose mantissa has
    53 bits leaves a difference that is not negative. *)
Lemma sub_nonneg_from (m0 : positive) (x : number) :
  wf x -> 2 ^ 53 <= 2 * Zpos m0 ->
  SFleb x (S754_finite false m0 (-48)) = true ->
  nonneg (SFsub prec emax (S754_finite false m0 (-48)) x).
Proof.
  intros W B L.
  destruct x as [s|s| |s m e]; unfold SFsub.
  - reflexivity.
  - destruct s; [reflexivity|discriminate L].
  - discriminate L.
  - apply binary_normalize_nonneg.
    pose proof (wf_mantissa _ _ _ W) as Bm.
    remember (2 ^ 53) as top eqn:Etop.
    destruct s; unfold cond_Zopp; [lia|].
    unfold SFleb, SFcompare in L.
    destruct (e ?= -48) eqn:C.
    + apply Z.compare_eq in C. subst e.
      rewrite Z.min_id, !shl_align_fst by lia.
      rewrite Z.sub_diag, Z.pow_0_r.
      destruct (Pos.compare_cont Eq m m0) eqn:P; try discriminate L;
        fold (Pos.compare m m0) in P.
      * apply Pos.compare_eq in P. subst m. lia.
      * change (m < m0)%positive in P. lia.
    + rewrite Z.compare_lt_iff in C.
      rewrite Z.min_r by lia. rewrite !shl_align_fst by lia.
      rewrite Z.sub_diag, Z.pow_0_r.
      assert (P : 2 ^ 1 <= 2 ^ (-48 - e)) by (apply Z.pow_le_mono_r; lia).
      rewrite Z.pow_1_r in P.
      assert (Q : Zpos m0 * 2 <= Zpos m0 * 2 ^ (-48 - e))
        by (apply Z.mul_le_mono_nonneg_l; lia).
      lia.
    + discriminate L.
Qed.

(** For a binary64 [x <= 25], the difference [25 - x] is not negative. *)
Lemma sub_25_nonneg (x : number) :
  wf x -> le x (of_Z 25) = true -> nonneg (sub (of_Z 25) x).
Proof.
  rewrite of_Z_25. intros W L. apply sub_nonneg_from; try assumption.
  apply Z.leb_le. vm_compute. reflexivity.
Qed.

Lemma hundredths_nonneg m e : 0 <= hundredths m e.
Proof.
  unfold hundredths. destruct e as [|q|q].
  - lia.
  - assert (0 < 2 ^ Zpos q) by (apply Z.pow_pos_nonneg; lia). nia.
  - apply Z.div_pos.
    + assert (0 < 2 ^ Zpos q) by (apply Z.pow_pos_nonneg; lia). lia.
    + apply Z.pow_pos_nonneg; lia.
Qed.

Lemma toFixed2_unsigned (x : number) : nonneg x -> unsigned (toFixed2 x).
Proof.
  destruct x as [s|s| |s m e]; simpl; try tauto; try lia.
  intros ->. destruct (ge_1e21 m e); simpl; auto using hundredths_nonneg.
Qed.

Lemma Number_nonneg (t : fixed2) : unsigned t -> nonneg (Number t).
Proof.
  destruct t as [|s|s m e|s n]; simpl; try tauto.
  intros [-> Hn]. destruct n as [|q|q]; simpl; try lia; trivial.
  unfold SFdiv_core_binary.
  set (e' := Z.min _ _). set (m' := match _ with Z0 => _ | _ => _ end).
  assert (Hm : 0 <= m').
  { subst m'. destruct (0 - 0 - e'); try lia. apply Z.shiftl_nonneg. lia. }
  destruct (Z.div_eucl m' 100) as [q0 r0] eqn:E.
  apply binary_round_aux_nonneg.
  replace q0 with (m' / 100) by (unfold Z.div; rewrite E; reflexivity).
  apply Z.div_pos; lia.
Qed.

(** The deficit of a reading at or below 25 is never negative. *)
Lemma deficit_nonneg (x : number) :
  wf x -> le x (of_Z 25) = true ->
  nonneg (Number (toFixed2 (sub (of_Z 25) x))).
Proof.
  intros W L. apply Number_nonneg, toFixed2_unsigned, sub_25_nonneg; assumption.
Qed.

(** [hundredths] is the nearest integer to a hundred times the value, the
    larger one on a tie. *)
Lemma hundredths_nearest m e :
  (100 * F2Q (S754_finite false m e) - (1 # 2) < inject_Z (hundredths m e) /\
   inject_Z (hundredths m e) <= 100 * F2Q (S754_finite false m e) + (1 # 2))%Q.
Proof.
  unfold F2Q, hundredths, cond_Zopp.
  destruct e as [|q|q].
  - unfold Qlt, Qle; simpl; lia.
  - unfold Qlt, Qle. cbn [Qnum Qden Qminus Qplus Qmult Qopp inject_Z].
    set (v := Zpos m * 2 ^ Zpos q). lia.
  - unfold Qlt, Qle. cbn [Qnum Qden Qminus Qplus Qmult Qopp inject_Z].
    rewrite !Pos2Z.inj_mul, !Pos2Z.inj_pow.
    assert (P : 0 < 2 ^ Zpos q) by (apply Z.pow_pos_nonneg; lia).
    replace (2 ^ (Zpos q + 1)) with (2 * 2 ^ Zpos q)
      by (rewrite Z.pow_add_r by lia; lia).
    set (d := 2 ^ Zpos q) in *.
    pose proof (Z.div_mod (200 * Zpos m + d) (2 * d) ltac:(lia)) as D.
    pose proof (Z.mod_pos_bound (200 * Zpos m + d) (2 * d) ltac:(lia)) as B.
    set (n := (200 * Zpos m + d) / (2 * d)) in *.
    nia.
Qed.

End JSNumberFacts.

(* ================================================================= *)
(** ** Facts about the publisher *)

Module PublisherFacts.
Import JSNumber JSNumberFacts Publisher.

(** *** Lists *)

Lemma filter_nonempty {A} (f : A -> bool) (l : list A) :
  (0 <? List.length (filter f l)) = existsb f l.
Proof.
  induction l as [|x l IH]; simpl; [reflexivity|].
  destruct (f x); simpl; [reflexivity|exact IH].
Qed.

Lemma filter_length_le {A} (f : A -> bool) (l : list A) :
  List.length (filter f l) <= List.length l.
Proof.
  induction l as [|x l IH]; simpl; [lia|]. destruct (f x); simpl; lia.
Qed.

Lemma skipn_length_app {A} (l l' : list A) :
  skipn (List.length l) (l ++ l') = l'.
Proof. induction l as [|x l IH]; simpl; [reflexivity|exact IH]. Qed.

Lemma skipn_length_self {A} (l : list A) : skipn (List.length l) l = [].
Proof. induction l as [|x l IH]; simpl; [reflexivity|exact IH]. Qed.

(** *** Rooms with and without their [tanks] *)

Lemma room_tanks_of (r : room) (ts : list tank) :
  room_tanks r = Some ts -> tanks_of r = ts.
Proof. unfold tanks_of. intros ->. reflexivity. Qed.

Lemma well_formed_cons r rooms :
  well_formed_rooms (r :: rooms) = true <->
  room_tanks r = Some (tanks_of r) /\ well_formed_rooms rooms = true.
Proof.
  unfold well_formed_rooms, tanks_of. simpl.
  destruct (room_tanks r); simpl; intuition congruence.
Qed.

Lemma reduce_add_tanks rooms n :
  well_formed_rooms rooms = true ->
  reduce add_tanks rooms n = Return (n + count_tanks rooms).
Proof.
  revert n. induction rooms as [|r rooms IH]; intros n W.
  - simpl. f_equal. unfold count_tanks. simpl. lia.
  - apply well_formed_cons in W. destruct W as [T W].
    simpl. unfold add_tanks at 1. rewrite T. simpl.
    rewrite IH by exact W. f_equal. unfold count_tanks. simpl. lia.
Qed.

Lemma reduce_add_tanks_throw rooms n :
  well_formed_rooms rooms = false ->
  exists message, reduce add_tanks rooms n = Throw (TypeError message).
Proof.
  revert n. induction rooms as [|r rooms IH]; intros n W.
  - discriminate W.
  - simpl. unfold add_tanks at 1.
    destruct (room_tanks r) as [ts|] eqn:T; simpl.
    + apply IH. unfold well_formed_rooms in *. simpl in W.
      rewrite T in W. exact W.
    + eexists. reflexivity.
Qed.

Section Evaluator.
Variable cfg : config.

Lemma pushLowRoom_entry acc r :
  room_tanks r = Some (tanks_of r) ->
  pushLowRoom cfg acc r =
  Return (if qualifies cfg r then acc ++ [entryOf cfg r] else acc).
Proof.
  intros T. unfold pushLowRoom. rewrite T. simpl.
  rewrite filter_nonempty. unfold qualifies.
  destruct (existsb (isLow cfg) (tanks_of r)); reflexivity.
Qed.

Lemma reduce_pushLowRoom rooms acc :
  well_formed_rooms rooms = true ->
  reduce (pushLowRoom cfg) rooms acc =
  Return (acc ++ map (entryOf cfg) (filter (qualifies cfg) rooms)).
Proof.
  revert acc. induction rooms as [|r rooms IH]; intros acc W.
  - simpl. rewrite app_nil_r. reflexivity.
  - apply well_formed_cons in W. destruct W as [T W].
    simpl. rewrite pushLowRoom_entry by exact T. simpl.
    rewrite IH by exact W.
    destruct (qualifies cfg r); simpl; [|reflexivity].
    rewrite <- app_assoc. reflexivity.
Qed.

Lemma reduce_pushLowRoom_throw rooms acc :
  well_formed_rooms rooms = false ->
  exists message,
    reduce (pushLowRoom cfg) rooms acc = Throw (TypeError message).
Proof.
  revert acc. induction rooms as [|r rooms IH]; intros acc W.
  - discriminate W.
  - simpl. destruct (room_tanks r) as [ts|] eqn:T.
    + rewrite pushLowRoom_entry
        by (rewrite T; f_equal; symmetry; apply room_tanks_of, T).
      simpl. apply IH. unfold well_formed_rooms in *. simpl in W.
      rewrite T in W. exact W.
    + unfold pushLowRoom. rewrite T. simpl. eexists. reflexivity.
Qed.

(** The summary of well-formed rooms: one entry per qualifying room, in the
    order of the rooms. *)
Lemma lowLevelTanksOf_entries rooms :
  well_formed_rooms rooms = true ->
  lowLevelTanksOf cfg rooms =
  Return (map (entryOf cfg) (filter (qualifies cfg) rooms)).
Proof. intros W. unfold lowLevelTanksOf. apply reduce_pushLowRoom, W. Qed.

Lemma lowLevelTanksOf_well_formed rooms entries :
  lowLevelTanksOf cfg rooms = Return entries ->
  well_formed_rooms rooms = true.
Proof.
  intros H. destruct (well_formed_rooms rooms) eqn:W; [reflexivity|].
  destruct (reduce_pushLowRoom_throw rooms [] W) as [m E].
  unfold lowLevelTanksOf in H. congruence.
Qed.

Lemma entries_nonempty rooms :
  (0 <? List.length (map (entryOf cfg) (filter (qualifies cfg) rooms))) =
  existsb (qualifies cfg) rooms.
Proof. rewrite length_map. apply filter_nonempty. Qed.

(** What [checkTankLevels] does to the world. *)
Lemma checkTankLevels_run rooms w :
  well_formed_rooms rooms = true ->
  checkTankLevels cfg rooms w =
  (Return tt, if existsb (qualifies cfg) rooms then alerted cfg rooms w else w).
Proof.
  intros W. unfold checkTankLevels. simpl. unfold lift.
  rewrite lowLevelTanksOf_entries by exact W.
  rewrite entries_nonempty.
  destruct (existsb (qualifies cfg) rooms); [|reflexivity].
  simpl. rewrite reduce_add_tanks by exact W. reflexivity.
Qed.

Lemma checkTankLevels_throw rooms w :
  well_formed_rooms rooms = false ->
  exists message, checkTankLevels cfg rooms w = (Throw (TypeError message), w).
Proof.
  intros W. destruct (reduce_pushLowRoom_throw rooms [] W) as [m E].
  exists m. unfold checkTankLevels, lowLevelTanksOf. simpl. unfold lift.
  rewrite E. reflexivity.
Qed.

Lemma checkTankLevels_world rooms w :
  snd (checkTankLevels cfg rooms w) =
  if well_formed_rooms rooms && existsb (qualifies cfg) rooms
  then alerted cfg rooms w else w.
Proof.
  destruct (well_formed_rooms rooms) eqn:W.
  - rewrite checkTankLevels_run by exact W. reflexivity.
  - destruct (checkTankLevels_throw rooms w W) as [m E]. rewrite E. reflexivity.
Qed.

(** *** The handler *)

Lemma map_keepLowTanks rooms :
  well_formed_rooms rooms = true ->
  map_ (keepLowTanks cfg) rooms = Return (map (keepLow cfg) rooms).
Proof.
  induction rooms as [|r rooms IH]; intros W; [reflexivity|].
  apply well_formed_cons in W. destruct W as [T W].
  simpl. unfold keepLowTanks at 1. rewrite T. simpl.
  rewrite IH by exact W. reflexivity.
Qed.

Lemma filter_hasTanks rooms :
  well_formed_rooms rooms = true ->
  filter_ hasTanks rooms =
  Return (filter (fun r => 0 <? List.length (tanks_of r)) rooms).
Proof.
  induction rooms as [|r rooms IH]; intros W; [reflexivity|].
  apply well_formed_cons in W. destruct W as [T W].
  simpl. unfold hasTanks at 1. rewrite T. simpl.
  rewrite IH by exact W. reflexivity.
Qed.

Lemma map_tankRefs rooms :
  well_formed_rooms rooms = true ->
  map_ tankRefs rooms =
  Return (map (fun r => map (fun t => (room_id r, tank_id t, tank_level t))
                            (tanks_of r)) rooms).
Proof.
  induction rooms as [|r rooms IH]; intros W; [reflexivity|].
  apply well_formed_cons in W. destruct W as [T W].
  simpl. unfold tankRefs at 1. rewrite T. simpl.
  rewrite IH by exact W. reflexivity.
Qed.

Lemma well_formed_keepLow rooms :
  well_formed_rooms (map (keepLow cfg) rooms) = true.
Proof. induction rooms as [|r rooms IH]; simpl; auto. Qed.

Lemma well_formed_filter f rooms :
  well_formed_rooms rooms = true -> well_formed_rooms (filter f rooms) = true.
Proof.
  unfold well_formed_rooms. rewrite !forallb_forall.
  intros W r I. apply filter_In in I. apply W, I.
Qed.

Lemma well_formed_lowRooms rooms :
  well_formed_rooms (lowRooms cfg rooms) = true.
Proof. apply well_formed_filter, well_formed_keepLow. Qed.

Lemma lowRooms_nonempty rooms :
  (0 <? List.length (lowRooms cfg rooms)) = existsb (qualifies cfg) rooms.
Proof.
  unfold lowRooms. rewrite filter_nonempty.
  induction rooms as [|r rooms IH]; simpl; [reflexivity|].
  rewrite IH. f_equal. unfold qualifies. apply filter_nonempty.
Qed.

(** The handler on a body that has its [rooms] and every [tanks]. *)
Lemma post_publish_valid data rooms w :
  data_rooms data = Some rooms -> well_formed_rooms rooms = true ->
  post_publish cfg data w = (Return tt, accepted cfg data rooms w).
Proof.
  intros R W.
  unfold post_publish, try_catch, post_publish_try. simpl. unfold lift.
  rewrite R. simpl.
  rewrite reduce_add_tanks by exact W. simpl.
  rewrite map_keepLowTanks by exact W. simpl.
  rewrite filter_hasTanks by apply well_formed_keepLow.
  fold (lowRooms cfg rooms).
  rewrite lowRooms_nonempty. unfold accepted.
  destruct (existsb (qualifies cfg) rooms) eqn:Q; [|reflexivity].
  rewrite reduce_add_tanks by apply well_formed_lowRooms. simpl.
  rewrite map_tankRefs by apply well_formed_lowRooms. simpl.
  rewrite checkTankLevels_run by exact W. rewrite Q. reflexivity.
Qed.

(** The handler on a body without [rooms], or with a room without [tanks]. *)
Lemma post_publish_invalid data w :
  structurally_valid data = false ->
  exists message,
    post_publish cfg data w = (Return tt, refused (TypeError message) w).
Proof.
  intros V.
  assert (E : exists message,
             (rooms <- read "length" (data_rooms data) ;;
              total <- reduce add_tanks rooms 0 ;;
              Return (ReceivedData (data_timestamp data)
                                   (List.length rooms) total)) =
             Throw (TypeError message)).
  { unfold structurally_valid in V.
    destruct (data_rooms data) as [rooms|]; simpl.
    - destruct (reduce_add_tanks_throw rooms 0 V) as [m E]. rewrite E.
      exists m. reflexivity.
    - eexists. reflexivity. }
  destruct E as [m E]. exists m.
  unfold post_publish, try_catch, post_publish_try.
  cbn [bind M_monad]. unfold lift at 1. rewrite E. reflexivity.
Qed.

End Evaluator.

End PublisherFacts.

(* ================================================================= *)
(** ** Facts about the subscribers *)

Module SubscriberFacts.
Import Subscriber.

Section Consumer.
Variable JSON_parse : string -> completion json.
Variable p : program.

(** The handler on a message that does not parse. *)
Lemma on_message_parse_failure topic message e w :
  JSON_parse message = Throw e ->
  on_message JSON_parse p topic message w =
  (Return tt, parse_failed topic message w).
Proof.
  intros F. unfold on_message, try_catch. cbn [bind M_monad].
  unfold lift at 1. rewrite F.
  unfold logToConsole, parse_failed. simpl.
  destruct (String.eqb message ""); reflexivity.
Qed.

End Consumer.

End SubscriberFacts.

(* ================================================================= *)
(** ** The properties of the specification *)

Import JSNumber JSNumberFacts Publisher PublisherFacts.

Lemma low_threshold_25 : LOW_LEVEL_THRESHOLD constants = of_Z 25.
Proof. reflexivity. Qed.

Lemma isLow_le (t : tank) :
  isLow constants t = le (tank_level t) (of_Z 25).
Proof. reflexivity. Qed.

Lemma qualifies_exists cfg (r : room) :
  qualifies cfg r = true <->
  exists t, In t (tanks_of r) /\ isLow cfg t = true.
Proof. unfold qualifies. apply existsb_exists. Qed.

Lemma entryOf_in cfg (r : room) (rooms : list room) :
  In r rooms -> qualifies cfg r = true ->
  In (entryOf cfg r) (map (entryOf cfg) (filter (qualifies cfg) rooms)).
Proof. intros I Q. apply in_map, filter_In. split; assumption. Qed.

Lemma in_entries cfg (e : roomEntry) (rooms : list room) :
  In e (map (entryOf cfg) (filter (qualifies cfg) rooms)) ->
  exists r, In r rooms /\ qualifies cfg r = true /\ e = entryOf cfg r.
Proof.
  intros I. apply in_map_iff in I. destruct I as [r [E I]].
  apply filter_In in I. exists r. intuition.
Qed.

Lemma in_lowTanks cfg (d : lowTank) (r : room) :
  In d (tanks (entryOf cfg r)) ->
  exists t, In t (tanks_of r) /\ isLow cfg t = true /\ d = lowTankOf cfg t.
Proof.
  simpl. intros I. apply in_map_iff in I. destruct I as [t [E I]].
  apply filter_In in I. exists t. intuition.
Qed.

(** C1.  On a body whose rooms all have their tanks the evaluator's summary
    exists, and a reading of a room is listed in it exactly when its level is
    [<= 25]: a level equal to 25 is listed, a level above 25 is not. *)
Theorem threshold_is_inclusive (rooms : list room) :
  well_formed_rooms rooms = true ->
  exists entries,
    lowLevelTanksOf constants rooms = Return entries /\
    forall r t, In r rooms -> In t (tanks_of r) ->
      let selected :=
        exists e, In e entries /\ roomId e = room_id r /\
                  In (lowTankOf constants t) (tanks e) in
      (selected <-> le (tank_level t) (of_Z 25) = true) /\
      (eqb (tank_level t) (of_Z 25) = true -> selected) /\
      (lt (of_Z 25) (tank_level t) = true -> ~ selected).
Proof.
  intros W. eexists. split; [apply lowLevelTanksOf_entries, W|].
  intros r t Ir It selected.
  assert (S1 : selected <-> le (tank_level t) (of_Z 25) = true).
  { subst selected. split.
    - intros [e [Ie [_ Id]]].
      apply in_entries in Ie. destruct Ie as [r' [_ [_ ->]]].
      apply in_lowTanks in Id. destruct Id as [t' [_ [L E]]].
      apply (f_equal level) in E. simpl in E. rewrite E. exact L.
    - intros L. exists (entryOf constants r). repeat split.
      + apply entryOf_in; [exact Ir|]. apply qualifies_exists.
        exists t. split; assumption.
      + simpl. apply in_map, filter_In. split; assumption. }
  split; [exact S1|]. split.
  - intros E. apply S1, eqb_le, E.
  - intros G S. apply S1 in S. rewrite (lt_not_le _ _ G) in S. discriminate S.
Qed.

Lemma threshold_is_inclusive_witness :
  exists entries,
    lowLevelTanksOf constants [Examples.roomA; Examples.roomB] = Return entries.
Proof.
  destruct (threshold_is_inclusive [Examples.roomA; Examples.roomB])
    as [entries [E _]]; [vm_compute; reflexivity|].
  exists entries. exact E.
Defined.

(** C3.  On a body whose rooms all have their tanks, the summary holds one
    entry per room that has a reading at or below 25, in the order of the
    rooms, and no other entry; an entry records the room's id, the number of
    its tanks, the number of its low tanks and, for each low tank, id, name,
    level, lastUpdated, threshold and deficit; the alert the evaluator
    publishes carries this summary.  Of two rooms of which only one has a low
    reading, only that one is summarised. *)
Theorem qualifying_rooms_contribute (rooms : list room) :
  well_formed_rooms rooms = true ->
  let entries := map (entryOf constants) (filter (qualifies constants) rooms) in
  lowLevelTanksOf constants rooms = Return entries /\
  (forall r, In r rooms ->
     (In (entryOf constants r) entries <->
      exists t, In t (tanks_of r) /\ le (tank_level t) (of_Z 25) = true)) /\
  (forall e, In e entries -> exists r, In r rooms /\ e = entryOf constants r) /\
  (forall r,
     roomId (entryOf constants r) = room_id r /\
     totalTanks (entryOf constants r) = List.length (tanks_of r) /\
     lowLevelTanks (entryOf constants r) =
       List.length (filter (isLow constants) (tanks_of r)) /\
     tanks (entryOf constants r) =
       map (fun t => {| id := tank_id t;
                        name := tank_name t;
                        level := tank_level t;
                        lastUpdated := tank_lastUpdated t;
                        threshold := of_Z 25;
                        deficit :=
                          Number (toFixed2 (sub (of_Z 25) (tank_level t))) |})
           (filter (isLow constants) (tanks_of r))) /\
  (forall w, existsb (qualifies constants) rooms = true ->
     exists a,
       emitted w (snd (checkTankLevels constants rooms w)) =
         [(MQTT_ALERT_TOPIC, AlertJSON a)] /\
       Publisher.rooms (details a) = entries) /\
  (forall a b, qualifies constants a = true -> qualifies constants b = false ->
     (rooms = [a; b] \/ rooms = [b; a]) -> entries = [entryOf constants a]).
Proof.
  intros W entries. split; [apply lowLevelTanksOf_entries, W|].
  split; [|split; [|split; [|split]]].
  - intros r I. split.
    + intros Ie. apply in_entries in Ie. destruct Ie as [r' [_ [Q E]]].
      apply (f_equal lowLevelTanks) in E. simpl in E.
      change (exists t, In t (tanks_of r) /\ isLow constants t = true).
      apply qualifies_exists. unfold qualifies.
      rewrite <- filter_nonempty, E, filter_nonempty. exact Q.
    + intros X. apply entryOf_in; [exact I|].
      apply (proj2 (qualifies_exists constants r)). exact X.
  - intros e Ie. apply in_entries in Ie. destruct Ie as [r [I [_ E]]].
    exists r. split; assumption.
  - intros r. repeat split.
  - intros w Q. rewrite checkTankLevels_run by exact W. rewrite Q.
    eexists. split.
    + unfold emitted, alerted. simpl. apply skipn_length_app.
    + reflexivity.
  - intros a b Qa Qb [-> | ->]; subst entries; simpl; rewrite Qa, Qb;
      reflexivity.
Qed.

Lemma qualifying_rooms_contribute_witness :
  lowLevelTanksOf constants [Examples.roomA; Examples.roomB] =
  Return [entryOf constants Examples.roomA].
Proof.
  destruct (qualifying_rooms_contribute [Examples.roomA; Examples.roomB])
    as [E [_ [_ [_ [_ X]]]]]; [vm_compute; reflexivity|].
  rewrite E.
  rewrite (X Examples.roomA Examples.roomB);
    [reflexivity|vm_compute; reflexivity|vm_compute; reflexivity|].
  left. reflexivity.
Defined.

(** *** Alerts and raw data among the published messages *)

Lemma alerts_accepted cfg data rooms w :
  alerts (accepted cfg data rooms w) =
  alerts w ++
  (if existsb (qualifies cfg) rooms
   then [AlertJSON (alertOf cfg rooms (clock w (3 + dates w))
                                      (clock w (4 + dates w)))]
   else []).
Proof.
  unfold alerts, accepted. cbn [broker].
  destruct (existsb (qualifies cfg) rooms);
    rewrite !filter_app, !map_app; cbn [filter map fst snd];
    change (String.eqb MQTT_TOPIC MQTT_ALERT_TOPIC) with false;
    change (String.eqb MQTT_ALERT_TOPIC MQTT_ALERT_TOPIC) with true;
    cbn [map snd]; rewrite ?app_nil_r; reflexivity.
Qed.

Lemma raw_data_accepted cfg data rooms w :
  raw_data (accepted cfg data rooms w) = raw_data w ++ [SnapshotJSON data].
Proof.
  unfold raw_data, accepted. cbn [broker].
  destruct (existsb (qualifies cfg) rooms);
    rewrite !filter_app, !map_app; cbn [filter map fst snd];
    change (String.eqb MQTT_TOPIC MQTT_TOPIC) with true;
    change (String.eqb MQTT_ALERT_TOPIC MQTT_TOPIC) with false;
    cbn [map snd]; rewrite ?app_nil_r; reflexivity.
Qed.

Lemma existsb_qualifies cfg rooms :
  existsb (qualifies cfg) rooms = true ->
  exists r t, In r rooms /\ In t (tanks_of r) /\ isLow cfg t = true.
Proof.
  intros Q. apply existsb_exists in Q. destruct Q as [r [I Q]].
  apply qualifies_exists in Q. destruct Q as [t [It L]].
  exists r, t. auto.
Qed.

Lemma existsb_low_reading rooms :
  existsb (qualifies constants) rooms = true ->
  exists r t, In r rooms /\ In t (tanks_of r) /\
              le (tank_level t) (of_Z 25) = true.
Proof. exact (existsb_qualifies constants rooms). Qed.

(** C4.  When no room has a reading at or below 25, and so when there is no
    room at all, the evaluator leaves the world as it is: nothing is
    published and nothing is logged.  If the evaluator, or the handler that
    calls it, puts an alert on the alerts topic, some room of the body has a
    reading at or below 25. *)
Theorem no_alert_without_low_reading :
  (forall rooms w,
     existsb (qualifies constants) rooms = false ->
     snd (checkTankLevels constants rooms w) = w) /\
  (forall w, checkTankLevels constants [] w = (Return tt, w)) /\
  (forall rooms w,
     alerts (snd (checkTankLevels constants rooms w)) <> alerts w ->
     exists r t, In r rooms /\ In t (tanks_of r) /\
                 le (tank_level t) (of_Z 25) = true) /\
  (forall data w,
     alerts (snd (post_publish constants data w)) <> alerts w ->
     exists rooms r t, data_rooms data = Some rooms /\ In r rooms /\
                       In t (tanks_of r) /\
                       le (tank_level t) (of_Z 25) = true).
Proof.
  split; [|split; [|split]].
  - intros rooms w Q. rewrite checkTankLevels_world, Q, andb_false_r.
    reflexivity.
  - intros w. reflexivity.
  - intros rooms w H. rewrite checkTankLevels_world in H.
    destruct (well_formed_rooms rooms); simpl in H; [|congruence].
    destruct (existsb (qualifies constants) rooms) eqn:Q; [|congruence].
    apply existsb_low_reading, Q.
  - intros data w H.
    destruct (structurally_valid data) eqn:V.
    + unfold structurally_valid in V.
      destruct (data_rooms data) as [rooms|] eqn:R; [|discriminate V].
      rewrite (post_publish_valid constants data rooms w R V) in H.
      simpl snd in H. rewrite alerts_accepted in H.
      destruct (existsb (qualifies constants) rooms) eqn:Q.
      * destruct (existsb_low_reading _ Q) as [r [t X]].
        exists rooms, r, t. split; [reflexivity|exact X].
      * rewrite app_nil_r in H. congruence.
    + destruct (post_publish_invalid constants data w V) as [m E].
      rewrite E in H. exfalso. apply H. reflexivity.
Qed.

(** C5 (as the code has it).  The evaluator reads the clock, publishes the
    alert and appends it to the log itself.  What it publishes depends on the
    rooms and on the two clock readings only: run on the same rooms in any
    two worlds it publishes the same messages up to the alert's two
    timestamps, and the same messages when the clock readings agree. *)
Theorem evaluator_depends_on_rooms_and_clock (rooms : list room)
    (w1 w2 : world) :
  let w1' := snd (checkTankLevels constants rooms w1) in
  let w2' := snd (checkTankLevels constants rooms w2) in
  w1' = (if well_formed_rooms rooms && existsb (qualifies constants) rooms
         then alerted constants rooms w1 else w1) /\
  map untimed_message (emitted w1 w1') = map untimed_message (emitted w2 w2') /\
  (clock w1 (dates w1) = clock w2 (dates w2) ->
   clock w1 (S (dates w1)) = clock w2 (S (dates w2)) ->
   emitted w1 w1' = emitted w2 w2').
Proof.
  intros w1' w2'. subst w1' w2'. rewrite !checkTankLevels_world.
  split; [reflexivity|].
  destruct (well_formed_rooms rooms && existsb (qualifies constants) rooms).
  - unfold emitted, alerted. cbn [broker].
    rewrite !skipn_length_app. split; [reflexivity|].
    intros -> ->. reflexivity.
  - unfold emitted. rewrite !skipn_length_self. split; reflexivity.
Qed.

(** C5, the pure reading refuted: on a room with a tank at 10 the evaluator
    publishes, and run twice in a row it stamps the two alerts
    differently. *)
Lemma evaluator_publishes_and_reads_the_clock :
  let w1 := snd (checkTankLevels constants [Examples.roomA] Examples.world0) in
  let w2 := snd (checkTankLevels constants [Examples.roomA] w1) in
  broker Examples.world0 = [] /\
  List.length (broker w1) = 1 /\
  List.length (log_file w1) = 1 /\
  map (fun m => match snd m with
                | AlertJSON a => (timestamp a, details_timestamp (details a))
                | SnapshotJSON _ => ("", "")
                end) (broker w2) = [("0", "1"); ("3", "4")].
Proof. vm_compute. repeat split. Qed.

(** C6.  For a body that has its rooms and every room its tanks, the handler
    publishes on the raw-data topic exactly one message, and its payload is
    the body as received. *)
Theorem raw_snapshot_is_republished (data : snapshot) (w : world) :
  structurally_valid data = true ->
  raw_data (snd (post_publish constants data w)) =
  raw_data w ++ [SnapshotJSON data].
Proof.
  intros V. unfold structurally_valid in V.
  destruct (data_rooms data) as [rooms|] eqn:R; [|discriminate V].
  rewrite (post_publish_valid constants data rooms w R V).
  apply raw_data_accepted.
Qed.

Lemma raw_snapshot_is_republished_witness :
  raw_data (snd (post_publish constants Examples.snapshot0 Examples.world0)) =
  [SnapshotJSON Examples.snapshot0].
Proof.
  apply (raw_snapshot_is_republished Examples.snapshot0 Examples.world0).
  vm_compute. reflexivity.
Defined.

(** C7.  For a body without its rooms (or with a room without its tanks) the
    handler ends normally, answers 500 with the fixed error text, and
    publishes nothing. *)
Theorem invalid_snapshot_is_refused (data : snapshot) (w : world) :
  structurally_valid data = false ->
  let w' := snd (post_publish constants data w) in
  fst (post_publish constants data w) = Return tt /\
  response w' = Some (500, ErrorBody "Failed to publish data") /\
  broker w' = broker w.
Proof.
  intros V. destruct (post_publish_invalid constants data w V) as [m E].
  rewrite E. repeat split.
Qed.

Lemma invalid_snapshot_is_refused_witness :
  response (snd (post_publish constants Examples.no_rooms Examples.world0)) =
  Some (500, ErrorBody "Failed to publish data").
Proof.
  apply (invalid_snapshot_is_refused Examples.no_rooms Examples.world0).
  vm_compute. reflexivity.
Defined.

(** C8 (as the code has it).  A message that [JSON.parse] rejects does not
    end the subscriber: the handler returns normally, prints the error
    banner that names the topic, prints the raw payload after it unless the
    payload is empty, sends nothing to the webhook, and the events that
    follow are handled from there. *)
Theorem malformed_message_is_logged_and_skipped
    (JSON_parse : string -> completion Subscriber.json)
    (p : Subscriber.program) (topic message : string) (e : error)
    (w : Subscriber.world) (evs : list Subscriber.event) :
  JSON_parse message = Throw e ->
  let w' := Subscriber.parse_failed topic message w in
  Subscriber.on_message JSON_parse p topic message w = (Return tt, w') /\
  Subscriber.console w' =
    Subscriber.console w ++
    Subscriber.Banner ERROR (Subscriber.clock w (Subscriber.dates w))
      ("Failed to parse message on " ++ topic ++ ":") ::
    (if String.eqb message "" then []
     else [Subscriber.Dump ERROR (Subscriber.Text message)]) /\
  Subscriber.posts w' = Subscriber.posts w /\
  Subscriber.run JSON_parse p (Subscriber.Message topic message :: evs) w =
  Subscriber.run JSON_parse p evs w'.
Proof.
  intros F w'. subst w'.
  pose proof (SubscriberFacts.on_message_parse_failure
                JSON_parse p topic message e w F) as R.
  split; [exact R|]. split; [|split].
  - unfold Subscriber.parse_failed. cbn [Subscriber.console].
    destruct (String.eqb message ""); [reflexivity|].
    rewrite <- app_assoc. reflexivity.
  - reflexivity.
  - cbn [Subscriber.run Subscriber.dispatch bind M_monad]. rewrite R.
    reflexivity.
Qed.

Lemma malformed_message_is_logged_and_skipped_witness :
  Subscriber.console
    (Subscriber.parse_failed "tankscape/alerts" "{oops" Examples.console0) =
  [Subscriber.Banner ERROR "0" "Failed to parse message on tankscape/alerts:";
   Subscriber.Dump ERROR (Subscriber.Text "{oops")].
Proof.
  destruct (malformed_message_is_logged_and_skipped
              Subscriber.parse_null Subscriber.WebhookForwarder
              "tankscape/alerts" "{oops" (SyntaxError "Unexpected token")
              Examples.console0 [])
    as [_ [C _]]; [vm_compute; reflexivity|].
  rewrite C. reflexivity.
Defined.

(** C8, as stated, refuted: [JSON.parse] rejects the empty payload, and for
    it both subscribers print the banner only. *)
Lemma empty_payload_is_not_printed :
  Subscriber.parse_null "" = Throw (SyntaxError "Unexpected end of JSON input")
  /\
  Subscriber.console
    (snd (Subscriber.on_message Subscriber.parse_null Subscriber.ConsoleOnly
            "tankscape/alerts" "" Examples.console0)) =
  [Subscriber.Banner ERROR "0" "Failed to parse message on tankscape/alerts:"]
  /\
  Subscriber.console
    (snd (Subscriber.on_message Subscriber.parse_null
            Subscriber.WebhookForwarder
            "tankscape/alerts" "" Examples.console0)) =
  [Subscriber.Banner ERROR "0" "Failed to parse message on tankscape/alerts:"].
Proof. vm_compute. repeat split. Qed.

(** C9.  The handler and the evaluator do the same whatever the value of
    [HIGH_LEVEL_THRESHOLD]: the completion and the whole world reached
    (response, published messages, log, console) are equal. *)
Theorem high_threshold_is_unused (low high1 high2 : number)
    (data : snapshot) (rooms : list room) (w : world) :
  post_publish {| LOW_LEVEL_THRESHOLD := low; HIGH_LEVEL_THRESHOLD := high1 |}
               data w =
  post_publish {| LOW_LEVEL_THRESHOLD := low; HIGH_LEVEL_THRESHOLD := high2 |}
               data w /\
  checkTankLevels
    {| LOW_LEVEL_THRESHOLD := low; HIGH_LEVEL_THRESHOLD := high1 |} rooms w =
  checkTankLevels
    {| LOW_LEVEL_THRESHOLD := low; HIGH_LEVEL_THRESHOLD := high2 |} rooms w /\
  post_publish
    {| LOW_LEVEL_THRESHOLD := of_Z 25; HIGH_LEVEL_THRESHOLD := high1 |} data w =
  post_publish constants data w.
Proof. repeat split. Qed.

Lemma entryOf_ok (r : room) :
  (forall t, In t (tanks_of r) -> wf (tank_level t)) ->
  qualifies constants r = true -> entry_ok (entryOf constants r).
Proof.
  intros V Q. unfold entry_ok. cbn [lowLevelTanks tanks totalTanks entryOf].
  split; [rewrite length_map; reflexivity|]. split.
  - split; [|apply filter_length_le].
    unfold qualifies in Q. rewrite <- filter_nonempty in Q.
    apply Nat.ltb_lt in Q. lia.
  - intros d I. apply in_map_iff in I. destruct I as [t [<- I]].
    apply filter_In in I. destruct I as [It L].
    split; [exact L|]. split; [reflexivity|].
    apply nonneg_le_zero. apply deficit_nonneg; [apply V, It|exact L].
Qed.

(** C10.  When every level of the body is a binary64, each room entry of
    the summary, and so of the alert the evaluator publishes, has a count of
    low tanks equal to the length of its [tanks] list, at least 1 and at most
    the room's number of tanks, and each listed tank has level [<= 25],
    threshold 25 and deficit [>= 0]. *)
Theorem alert_entries_are_consistent (rooms : list room) (w : world) :
  levels_wf rooms ->
  (forall entries,
     lowLevelTanksOf constants rooms = Return entries ->
     forall e, In e entries -> entry_ok e) /\
  (forall a,
     In (MQTT_ALERT_TOPIC, AlertJSON a)
        (emitted w (snd (checkTankLevels constants rooms w))) ->
     forall e, In e (Publisher.rooms (details a)) -> entry_ok e).
Proof.
  intros V.
  assert (K : forall e,
             In e (map (entryOf constants)
                       (filter (qualifies constants) rooms)) ->
             entry_ok e).
  { intros e I. apply in_entries in I. destruct I as [r [Ir [Q ->]]].
    apply entryOf_ok; [|exact Q]. intros t It. apply (V r t Ir It). }
  split.
  - intros entries E e I.
    pose proof (lowLevelTanksOf_well_formed _ _ _ E) as W.
    rewrite lowLevelTanksOf_entries in E by exact W.
    injection E as <-. apply K, I.
  - intros a I e Ie. rewrite checkTankLevels_world in I.
    destruct (well_formed_rooms rooms && existsb (qualifies constants) rooms).
    + unfold emitted, alerted in I. cbn [broker] in I.
      rewrite skipn_length_app in I. destruct I as [I|[]].
      injection I as <-. apply K, Ie.
    + unfold emitted in I. rewrite skipn_length_self in I. destruct I.
Qed.

Lemma sample_levels_wf : levels_wf [Examples.roomA; Examples.roomB].
Proof.
  intros r t [<-|[<-|[]]]; simpl.
  - intros [<-|[<-|[]]]; vm_compute; reflexivity.
  - intros [<-|[]]; vm_compute; reflexivity.
Defined.

Lemma alert_entries_are_consistent_witness :
  entry_ok (entryOf constants Examples.roomA).
Proof.
  destruct (alert_entries_are_consistent [Examples.roomA; Examples.roomB]
              Examples.world0 sample_levels_wf) as [K _].
  apply (K [entryOf constants Examples.roomA]).
  - vm_compute. reflexivity.
  - left. reflexivity.
Defined.

(* ================================================================= *)
(** ** Further properties of the publisher *)

Import Trace.

Lemma reduce_add_tanks_undefined rooms n :
  well_formed_rooms rooms = false ->
  reduce add_tanks rooms n = Throw undefined_length.
Proof.
  revert n. induction rooms as [|r rooms IH]; intros n W; [discriminate W|].
  simpl. unfold add_tanks at 1.
  destruct (room_tanks r) as [ts|] eqn:T; simpl; [|reflexivity].
  apply IH. unfold well_formed_rooms in *. simpl in W. rewrite T in W. exact W.
Qed.

Lemma post_publish_refused cfg data w :
  structurally_valid data = false ->
  post_publish cfg data w = (Return tt, refused undefined_length w).
Proof.
  intros V. unfold post_publish, try_catch, post_publish_try.
  cbn [bind M_monad]. unfold lift at 1.
  unfold structurally_valid in V.
  destruct (data_rooms data) as [rooms|]; simpl.
  - rewrite (reduce_add_tanks_undefined rooms 0 V). reflexivity.
  - reflexivity.
Qed.

Lemma post_publish_accepted cfg data w :
  structurally_valid data = true ->
  post_publish cfg data w = (Return tt, accepted cfg data (rooms_of data) w).
Proof.
  intros V. unfold structurally_valid, rooms_of in *.
  destruct (data_rooms data) as [rooms|] eqn:R; [|discriminate V].
  apply post_publish_valid; assumption.
Qed.

Lemma existsb_false_filter {A} (f : A -> bool) (l : list A) :
  existsb f l = false -> filter f l = [].
Proof.
  induction l as [|x l IH]; simpl; [reflexivity|].
  destruct (f x); simpl; [discriminate|exact IH].
Qed.

Lemma filter_keeps_distinct {A B} (key : A -> B) (keep : A -> bool) :
  forall xs, NoDup (map key xs) -> NoDup (map key (filter keep xs)).
Proof.
  intros xs. induction xs as [|x xs IH]; intros N; [constructor|].
  cbn [map filter] in *. apply NoDup_cons_iff in N. destruct N as [Hx Hl].
  destruct (keep x); [|exact (IH Hl)].
  cbn [map]. apply NoDup_cons; [|exact (IH Hl)].
  intros I. apply Hx. apply in_map_iff in I. destruct I as [z [E I]].
  apply filter_In in I. apply in_map_iff. exists z. tauto.
Qed.

(** X1.  On a body of the shape that [snapshot] holds (an object whose
    [rooms], when present, is an array of room objects whose [tanks], when
    present, is an array of tank objects with a numeric [level]), the handler
    never lets an exception out and always answers: 200 with the success
    text when the body has its rooms array and every room its tanks array,
    500 with the fixed error text when [rooms] is missing or a room lacks
    its [tanks].  A body with an entry of another shape, such as a [null]
    tank, is not covered. *)
Theorem handler_always_answers (data : snapshot) (w : world) :
  fst (post_publish constants data w) = Return tt /\
  response (snd (post_publish constants data w)) =
    Some (if structurally_valid data
          then (200, MessageBody "Data published successfully")
          else (500, ErrorBody "Failed to publish data")).
Proof.
  destruct (structurally_valid data) eqn:V.
  - rewrite post_publish_accepted by exact V. split; reflexivity.
  - rewrite post_publish_refused by exact V. split; reflexivity.
Qed.

(** X2.  On a body of the shape that [snapshot] holds, a request publishes
    nothing when [rooms] is missing or a room lacks its [tanks]; when the
    rooms array and every tanks array are there, it publishes the received
    body on the raw-data topic first and then, when some reading is at or
    below 25, one alert on the alerts topic: never more than two messages.
    A body with an entry of another shape, such as a [null] tank, is not
    covered. *)
Theorem handler_publishes_snapshot_then_alert (data : snapshot) (w : world) :
  let out := emitted w (snd (post_publish constants data w)) in
  out =
    (if structurally_valid data
     then (MQTT_TOPIC, SnapshotJSON data) ::
          map (fun a => (MQTT_ALERT_TOPIC, AlertJSON a))
              (alert_of_request (rooms_of data) w)
     else []) /\
  List.length out <= 2.
Proof.
  intros out. subst out. destruct (structurally_valid data) eqn:V.
  - rewrite post_publish_accepted by exact V. cbn [snd].
    unfold emitted, accepted, alert_of_request. cbn [broker].
    destruct (existsb (qualifies constants) (rooms_of data));
      rewrite <- ?app_assoc, skipn_length_app; simpl; split;
      try reflexivity; lia.
  - rewrite post_publish_refused by exact V. cbn [snd].
    unfold emitted, refused. cbn [broker]. rewrite skipn_length_self.
    simpl. split; [reflexivity|lia].
Qed.

(** X3.  On a body of the shape that [snapshot] holds, a request appends at
    most one line to the alert log: the alert it published, stamped with the
    clock reading that follows the alert's own two; or, when [rooms] is
    missing or a room lacks its [tanks], the [TypeError] of
    [undefined.length]; nothing when the arrays are there and no reading is
    at or below 25.  A body with an entry of another shape, such as a
    [null] tank, is not covered. *)
Theorem request_log_line (data : snapshot) (w : world) :
  logged w (snd (post_publish constants data w)) =
  if structurally_valid data
  then map (fun a => (clock w (5 + dates w), AlertRecord a))
           (alert_of_request (rooms_of data) w)
  else [(clock w (2 + dates w),
         ErrorRecord (clock w (1 + dates w)) undefined_length)].
Proof.
  destruct (structurally_valid data) eqn:V.
  - rewrite post_publish_accepted by exact V. cbn [snd].
    unfold logged, accepted, alert_of_request. cbn [log_file].
    destruct (existsb (qualifies constants) (rooms_of data)).
    + rewrite skipn_length_app. reflexivity.
    + rewrite skipn_length_self. reflexivity.
  - rewrite post_publish_refused by exact V. cbn [snd].
    unfold logged, refused. cbn [log_file]. rewrite skipn_length_app.
    reflexivity.
Qed.

Lemma low_count_entries cfg rooms :
  list_sum (map lowLevelTanks
                (map (entryOf cfg) (filter (qualifies cfg) rooms))) =
  List.length (filter (isLow cfg) (all_tanks rooms)).
Proof.
  unfold all_tanks.
  induction rooms as [|r rooms IH]; simpl; [reflexivity|].
  rewrite filter_app, length_app, <- IH.
  destruct (qualifies cfg r) eqn:Q; simpl; [reflexivity|].
  unfold qualifies in Q. rewrite (existsb_false_filter _ _ Q). reflexivity.
Qed.

Lemma count_tanks_all rooms :
  count_tanks rooms = List.length (all_tanks rooms).
Proof.
  unfold count_tanks, all_tanks.
  induction rooms as [|r rooms IH]; simpl; [reflexivity|].
  rewrite length_app, IH. reflexivity.
Qed.

Lemma emitted_alert rooms w a :
  In (MQTT_ALERT_TOPIC, AlertJSON a)
     (emitted w (snd (checkTankLevels constants rooms w))) ->
  well_formed_rooms rooms = true /\
  a = alertOf constants rooms (clock w (dates w)) (clock w (S (dates w))).
Proof.
  rewrite checkTankLevels_world.
  destruct (well_formed_rooms rooms); simpl.
  - destruct (existsb (qualifies constants) rooms).
    + unfold emitted, alerted. cbn [broker]. rewrite skipn_length_app.
      intros [E|[]]. injection E as <-. split; reflexivity.
    + unfold emitted. rewrite skipn_length_self. intros [].
  - unfold emitted. rewrite skipn_length_self. intros [].
Qed.

(** X4.  The totals of an alert the evaluator publishes: the event name and the
    topic are the fixed ones, [totalRooms] and [totalTanks] count all rooms
    and all tanks of the body, there are at most [totalRooms] entries, and
    the low-tank counts of the entries add up to the number of tanks of the
    body at or below 25: no low tank is left out or counted twice. *)
Theorem alert_totals (rooms : list room) (w : world) (a : alertData) :
  In (MQTT_ALERT_TOPIC, AlertJSON a)
     (emitted w (snd (checkTankLevels constants rooms w))) ->
  event a = "LOW_LEVEL_ALERT" /\
  mqttTopic a = MQTT_ALERT_TOPIC /\
  totalRooms (details a) = List.length rooms /\
  details_totalTanks (details a) = List.length (all_tanks rooms) /\
  List.length (Publisher.rooms (details a)) <= totalRooms (details a) /\
  list_sum (map lowLevelTanks (Publisher.rooms (details a))) =
    List.length (filter (isLow constants) (all_tanks rooms)) /\
  list_sum (map lowLevelTanks (Publisher.rooms (details a))) <=
    details_totalTanks (details a).
Proof.
  intros I. apply emitted_alert in I. destruct I as [_ ->].
  cbn [alertOf event mqttTopic details totalRooms details_totalTanks
       Publisher.rooms].
  rewrite low_count_entries, count_tanks_all, length_map.
  repeat split; try apply filter_length_le.
Qed.

Lemma alert_totals_witness :
  totalRooms
    (details (alertOf constants [Examples.roomA; Examples.roomB] "0" "1")) = 2.
Proof.
  refine (proj1 (proj2 (proj2
    (alert_totals [Examples.roomA; Examples.roomB] Examples.world0 _ _)))).
  vm_compute. left. reflexivity.
Defined.

(** X5.  The entries follow the rooms: their room ids are the ids of the rooms
    with a low reading, in the order of the body, so bodies with distinct
    room ids give alerts with distinct entries. *)
Theorem entries_follow_rooms (rooms : list room) (entries : list roomEntry) :
  lowLevelTanksOf constants rooms = Return entries ->
  map roomId entries = map room_id (filter (qualifies constants) rooms) /\
  (NoDup (map room_id rooms) -> NoDup (map roomId entries)).
Proof.
  intros E. pose proof (lowLevelTanksOf_well_formed _ _ _ E) as W.
  rewrite lowLevelTanksOf_entries in E by exact W. injection E as <-.
  assert (M : map roomId (map (entryOf constants)
                              (filter (qualifies constants) rooms)) =
              map room_id (filter (qualifies constants) rooms)).
  { rewrite map_map. reflexivity. }
  split; [exact M|]. intros N. rewrite M. apply filter_keeps_distinct, N.
Qed.

Lemma entries_follow_rooms_witness :
  map roomId [entryOf constants Examples.roomA] = ["A"].
Proof.
  destruct (entries_follow_rooms [Examples.roomA; Examples.roomB]
              [entryOf constants Examples.roomA]) as [M _];
    [vm_compute; reflexivity|].
  rewrite M. vm_compute. reflexivity.
Defined.

(** X6.  The evaluator called on rooms of which one has no [tanks] raises the
    [TypeError] of [undefined.filter] and does nothing else, also when an
    earlier room has a low reading: no partial alert is published. *)
Theorem evaluator_rejects_room_without_tanks (rooms : list room) (w : world) :
  well_formed_rooms rooms = false ->
  checkTankLevels constants rooms w =
  (Throw (TypeError "Cannot read properties of undefined (reading 'filter')"),
   w).
Proof.
  intros W. unfold checkTankLevels, lowLevelTanksOf. cbn [bind M_monad].
  unfold lift at 1.
  assert (E : forall acc,
             reduce (pushLowRoom constants) rooms acc =
             Throw (TypeError
               "Cannot read properties of undefined (reading 'filter')")).
  { induction rooms as [|r rooms IH]; intros acc; [discriminate W|].
    simpl. destruct (room_tanks r) as [ts|] eqn:T.
    - rewrite pushLowRoom_entry
        by (rewrite T; f_equal; symmetry; apply room_tanks_of, T).
      simpl. apply IH. unfold well_formed_rooms in *. simpl in W.
      rewrite T in W. exact W.
    - unfold pushLowRoom. rewrite T. reflexivity. }
  rewrite E. reflexivity.
Qed.

Lemma evaluator_rejects_room_without_tanks_witness :
  fst (checkTankLevels constants
         [Examples.roomA;
          {| room_id := "C"; room_tanks := None; room_rest := [] |}]
         Examples.world0) =
  Throw (TypeError "Cannot read properties of undefined (reading 'filter')").
Proof.
  rewrite (evaluator_rejects_room_without_tanks
             [Examples.roomA;
              {| room_id := "C"; room_tanks := None; room_rest := [] |}]
             Examples.world0); [reflexivity|].
  vm_compute. reflexivity.
Defined.

Lemma count_tanks_lowRooms cfg rooms :
  count_tanks (lowRooms cfg rooms) =
  List.length (filter (isLow cfg) (all_tanks rooms)).
Proof.
  unfold count_tanks, lowRooms, all_tanks.
  induction rooms as [|r rooms IH]; simpl; [reflexivity|].
  rewrite filter_app, length_app, <- IH.
  change (tanks_of (keepLow cfg r)) with (filter (isLow cfg) (tanks_of r)).
  destruct (filter (isLow cfg) (tanks_of r)) as [|t ts] eqn:F;
    [reflexivity|].
  cbn [Nat.ltb Nat.leb List.length map list_sum].
  change (tanks_of (keepLow cfg r)) with (filter (isLow cfg) (tanks_of r)).
  rewrite F. reflexivity.
Qed.

Lemma length_concat_refs {B} (g : room -> tank -> B) (l : list room) :
  List.length (List.concat (map (fun r => map (g r) (tanks_of r)) l)) =
  count_tanks l.
Proof.
  unfold count_tanks. induction l as [|r l IH]; simpl; [reflexivity|].
  rewrite length_app, length_map, IH. reflexivity.
Qed.

Lemma in_lowRooms cfg r rooms :
  In r (lowRooms cfg rooms) ->
  forall t, In t (tanks_of r) -> isLow cfg t = true.
Proof.
  unfold lowRooms. intros I t It.
  apply filter_In in I. destruct I as [I _].
  apply in_map_iff in I. destruct I as [r0 [<- _]].
  simpl in It. apply filter_In in It. apply It.
Qed.

(** X7. When a request raises an alert, the handler's warning line and the
    alert agree: the warning's total is the sum of the low-tank counts of the
    alert's entries, it lists as many tank references as that, and every
    reference has a level at or below 25. *)
Theorem warning_agrees_with_alert (data : snapshot) (w : world) :
  structurally_valid data = true ->
  existsb (qualifies constants) (rooms_of data) = true ->
  exists t0 t1 t2 total refs a,
    printed w (snd (post_publish constants data w)) =
      [Banner INFO t0 "Received tank data:";
       Dump INFO (ReceivedData (data_timestamp data)
                               (List.length (rooms_of data))
                               (List.length (all_tanks (rooms_of data))));
       Banner SUCCESS t1 "Published data to tankscape/tanks";
       Banner WARNING t2 "Low level tanks detected:";
       Dump WARNING (LowLevelData total refs)] /\
    In (MQTT_ALERT_TOPIC, AlertJSON a)
       (emitted w (snd (post_publish constants data w))) /\
    total = list_sum (map lowLevelTanks (Publisher.rooms (details a))) /\
    List.length refs = total /\
    forall ref, In ref refs -> le (snd ref) (of_Z 25) = true.
Proof.
  intros V Q. rewrite post_publish_accepted by exact V. cbn [snd].
  do 6 eexists. split; [|split; [|split; [|split]]].
  - unfold printed, accepted. cbn [console]. rewrite Q.
    rewrite <- !app_assoc. rewrite skipn_length_app.
    rewrite count_tanks_all. reflexivity.
  - unfold emitted, accepted. cbn [broker]. rewrite Q.
    rewrite <- app_assoc, skipn_length_app. right. left. reflexivity.
  - cbn [alertOf details Publisher.rooms].
    rewrite low_count_entries. apply count_tanks_lowRooms.
  - apply length_concat_refs.
  - intros ref I. apply in_concat in I. destruct I as [l [Il I]].
    apply in_map_iff in Il. destruct Il as [r [<- Ir]].
    apply in_map_iff in I. destruct I as [t [<- It]].
    apply (in_lowRooms constants r _ Ir t It).
Qed.

Lemma warning_agrees_with_alert_witness :
  List.length
    (printed Examples.world0
       (snd (post_publish constants Examples.snapshot0 Examples.world0))) = 5.
Proof.
  destruct (warning_agrees_with_alert Examples.snapshot0 Examples.world0)
    as [t0 [t1 [t2 [total [refs [a [P _]]]]]]];
    [vm_compute; reflexivity|vm_compute; reflexivity|].
  rewrite P. reflexivity.
Defined.

(** X8.  A request only adds to the world: what was printed, published and
    logged before it stays, in place, and the clock is not replaced. *)
Theorem handler_keeps_history (data : snapshot) (w : world) :
  let w' := snd (post_publish constants data w) in
  console w' = console w ++ printed w w' /\
  broker w' = broker w ++ emitted w w' /\
  log_file w' = log_file w ++ logged w w' /\
  clock w' = clock w /\
  dates w <= dates w'.
Proof.
  intros w'. subst w'. destruct (structurally_valid data) eqn:V.
  - rewrite post_publish_accepted by exact V. cbn [snd].
    unfold printed, emitted, logged, accepted.
    cbn [console broker log_file clock dates].
    destruct (existsb (qualifies constants) (rooms_of data));
      rewrite <- ?app_assoc, ?skipn_length_app, ?skipn_length_self,
              ?app_nil_r;
      repeat split; lia.
  - rewrite post_publish_refused by exact V. cbn [snd].
    unfold printed, emitted, logged, refused.
    cbn [console broker log_file clock dates].
    rewrite <- ?app_assoc, ?skipn_length_app, ?skipn_length_self, ?app_nil_r.
    repeat split; lia.
Qed.

(** X16.  Of the messages a request publishes, those on a topic the
    subscribers list in [MQTT_TOPICS] are exactly its alert, if it has one:
    the raw snapshot never goes to a subscribed topic. *)
Theorem subscribed_topics_carry_alerts_only (data : snapshot) (w : world) :
  filter (fun m => existsb (String.eqb (fst m)) Subscriber.MQTT_TOPICS)
         (emitted w (snd (post_publish constants data w))) =
  if structurally_valid data
  then map (fun a => (MQTT_ALERT_TOPIC, AlertJSON a))
           (alert_of_request (rooms_of data) w)
  else [].
Proof.
  destruct (structurally_valid data) eqn:V.
  - rewrite post_publish_accepted by exact V. cbn [snd].
    unfold emitted, accepted, alert_of_request. cbn [broker].
    destruct (existsb (qualifies constants) (rooms_of data));
      rewrite <- ?app_assoc, skipn_length_app; reflexivity.
  - rewrite post_publish_refused by exact V. cbn [snd].
    unfold emitted, refused. cbn [broker]. rewrite skipn_length_self.
    reflexivity.
Qed.

(* ================================================================= *)
(** ** Further properties of the subscribers *)

Section Subscribers.
Variable JSON_parse : string -> completion Subscriber.json.
Variable p : Subscriber.program.

(** What handling one event does. *)
Lemma dispatch_effect (ev : Subscriber.event) (w : Subscriber.world) :
  let r := Subscriber.dispatch JSON_parse p ev w in
  fst r = Return tt /\
  Subscriber.clock (snd r) = Subscriber.clock w /\
  Subscriber.dates (snd r) = S (Subscriber.dates w) /\
  Subscriber.posts (snd r) =
    Subscriber.posts w ++
    match p with
    | Subscriber.ConsoleOnly => []
    | Subscriber.WebhookForwarder =>
        map (fun v => (Subscriber.WEBHOOK_URL, v)) (parsed JSON_parse [ev])
    end /\
  List.length (filter is_banner (Subscriber.console (snd r))) =
    S (List.length (filter is_banner (Subscriber.console w))).
Proof.
  assert (B : forall line,
             is_banner line = true ->
             List.length (filter is_banner (Subscriber.console w ++ [line])) =
             S (List.length (filter is_banner (Subscriber.console w)))).
  { intros line E. rewrite filter_app, length_app. simpl. rewrite E.
    simpl. lia. }
  assert (D : forall l line,
             is_banner line = false ->
             List.length (filter is_banner (l ++ [line])) =
             List.length (filter is_banner l)).
  { intros l line E. rewrite filter_app, length_app. simpl. rewrite E.
    simpl. lia. }
  cbv zeta. unfold parsed. cbn [flat_map].
  destruct ev as [topic message|r]; cbn [Subscriber.dispatch].
  - unfold Subscriber.on_message, try_catch, lift, Subscriber.logToConsole.
    cbn [bind M_monad].
    destruct (JSON_parse message) as [v|e]; cbv beta iota.
    + destruct (Subscriber.truthy (Subscriber.Parsed v)), p; cbn;
        rewrite ?app_nil_r, ?D, ?B by reflexivity; repeat split.
    + destruct (Subscriber.truthy (Subscriber.Text message)), p; cbn;
        rewrite ?app_nil_r, ?D, ?B by reflexivity; repeat split.
  - unfold Subscriber.sendWebhook_resume, try_catch, Subscriber.throw,
      Subscriber.logToConsole.
    destruct r as [e|status]; cbv beta iota.
    + destruct (Subscriber.truthy (Subscriber.Text (error_message e))), p;
        cbn; rewrite ?app_nil_r, ?D, ?B by reflexivity; repeat split.
    + destruct (Subscriber.ok status); cbv beta iota;
        try destruct (Subscriber.truthy (Subscriber.Text _));
        destruct p; cbn;
        rewrite ?app_nil_r, ?D, ?B by reflexivity; repeat split.
Qed.

Lemma parsed_cons ev evs :
  parsed JSON_parse (ev :: evs) =
  parsed JSON_parse [ev] ++ parsed JSON_parse evs.
Proof. unfold parsed. simpl. rewrite app_nil_r. reflexivity. Qed.

Lemma run_effect (evs : list Subscriber.event) (w : Subscriber.world) :
  let r := Subscriber.run JSON_parse p evs w in
  fst r = Return tt /\
  Subscriber.clock (snd r) = Subscriber.clock w /\
  Subscriber.dates (snd r) = List.length evs + Subscriber.dates w /\
  Subscriber.posts (snd r) =
    Subscriber.posts w ++
    match p with
    | Subscriber.ConsoleOnly => []
    | Subscriber.WebhookForwarder =>
        map (fun v => (Subscriber.WEBHOOK_URL, v)) (parsed JSON_parse evs)
    end /\
  List.length (filter is_banner (Subscriber.console (snd r))) =
    List.length evs + List.length (filter is_banner (Subscriber.console w)).
Proof.
  revert w. induction evs as [|ev evs IH]; intros w.
  - cbn. destruct p; rewrite ?app_nil_r; repeat split.
  - cbn [Subscriber.run bind M_monad].
    pose proof (dispatch_effect ev w) as E. cbv zeta in E.
    destruct (Subscriber.dispatch JSON_parse p ev w) as [c w1].
    cbn [fst snd] in E. destruct E as [-> [Ec [Ed [Ep Eb]]]].
    specialize (IH w1). cbv zeta in IH.
    destruct (Subscriber.run JSON_parse p evs w1) as [c2 w2].
    cbn [fst snd] in IH |- *. destruct IH as [-> [Ic [Id [Ip Ib]]]].
    rewrite (parsed_cons ev evs), Ic, Id, Ip, Ib, Ec, Ed, Ep, Eb.
    cbn [List.length]. repeat split; try lia.
    destruct p; rewrite <- ?app_assoc, ?map_app; reflexivity.
Qed.

End Subscribers.

(** X11.  Whatever the messages and the outcomes of the webhook requests, in
    whatever order, no exception leaves a handler: both subscribers handle
    every event of the run and end normally. *)
Theorem subscriber_never_crashes
    (JSON_parse : string -> completion Subscriber.json)
    (p : Subscriber.program) (evs : list Subscriber.event)
    (w : Subscriber.world) :
  fst (Subscriber.run JSON_parse p evs w) = Return tt.
Proof. apply run_effect. Qed.

(** X12.  The console-only subscriber never calls the webhook. *)
Theorem console_only_never_posts
    (JSON_parse : string -> completion Subscriber.json)
    (evs : list Subscriber.event) (w : Subscriber.world) :
  Subscriber.posts
    (snd (Subscriber.run JSON_parse Subscriber.ConsoleOnly evs w)) =
  Subscriber.posts w.
Proof.
  destruct (run_effect JSON_parse Subscriber.ConsoleOnly evs w)
    as [_ [_ [_ [P _]]]].
  rewrite P. apply app_nil_r.
Qed.

(** X13. The forwarding subscriber posts to the webhook URL once for each
    message that parses, with the parsed value, in the order of arrival;
    messages that do not parse and settled requests cause no post (no retry). *)
Theorem webhook_forwards_each_parsed_message
    (JSON_parse : string -> completion Subscriber.json)
    (evs : list Subscriber.event) (w : Subscriber.world) :
  Subscriber.posts
    (snd (Subscriber.run JSON_parse Subscriber.WebhookForwarder evs w)) =
  Subscriber.posts w ++
  map (fun v => (Subscriber.WEBHOOK_URL, v)) (parsed JSON_parse evs).
Proof. apply (run_effect JSON_parse Subscriber.WebhookForwarder evs w). Qed.

(** X14.  Every event is reported by exactly one banner line, stamped by exactly
    one reading of the clock. *)
Theorem one_banner_per_event
    (JSON_parse : string -> completion Subscriber.json)
    (p : Subscriber.program) (evs : list Subscriber.event)
    (w : Subscriber.world) :
  let w' := snd (Subscriber.run JSON_parse p evs w) in
  Subscriber.dates w' = List.length evs + Subscriber.dates w /\
  List.length (filter is_banner (Subscriber.console w')) =
  List.length evs + List.length (filter is_banner (Subscriber.console w)).
Proof.
  destruct (run_effect JSON_parse p evs w) as [_ [_ [D [_ B]]]].
  split; assumption.
Qed.

(** X15.  A settled webhook request is only reported: success for a status from
    200 to 299, otherwise the failure banner followed by the error text
    (which for a response names the status); the handler returns normally
    and sends no new request. *)
Theorem webhook_outcome_is_reported (r : Subscriber.settlement)
    (w : Subscriber.world) :
  let w' := snd (Subscriber.sendWebhook_resume r w) in
  fst (Subscriber.sendWebhook_resume r w) = Return tt /\
  Subscriber.console w' =
    Subscriber.console w ++
    settlement_report r (Subscriber.clock w (Subscriber.dates w)) /\
  Subscriber.posts w' = Subscriber.posts w /\
  (forall status,
     r = Subscriber.Responded status -> Subscriber.ok status = false ->
     Subscriber.console w' =
       Subscriber.console w ++
       [Subscriber.Banner ERROR (Subscriber.clock w (Subscriber.dates w))
          "Failed to send webhook:";
        Subscriber.Dump ERROR
          (Subscriber.Text
             ("HTTP error! status: " ++ Subscriber.status_text status))]).
Proof.
  unfold Subscriber.sendWebhook_resume, try_catch, settlement_report.
  destruct r as [e|status].
  - unfold Subscriber.logToConsole, Subscriber.throw. cbn.
    destruct (String.eqb (error_message e) ""); cbn;
      rewrite <- ?app_assoc; repeat split; discriminate.
  - destruct (Subscriber.ok status) eqn:O;
      unfold Subscriber.logToConsole, Subscriber.throw; cbn;
      rewrite <- ?app_assoc; repeat split;
      intros s [= <-] O'; try congruence; reflexivity.
Qed.

(* ================================================================= *)
(** ** The comparison with the threshold, by value *)

Section Value.
Local Open Scope Z_scope.

Lemma digits2_pos_lower (m : positive) :
  2 ^ (Zpos (digits2_pos m) - 1) <= Zpos m.
Proof.
  induction m as [m IH|m IH|]; simpl digits2_pos.
  - rewrite Pos2Z.inj_succ.
    replace (Z.succ (Zpos (digits2_pos m)) - 1)
      with (Z.succ (Zpos (digits2_pos m) - 1)) by lia.
    rewrite Z.pow_succ_r by lia. lia.
  - rewrite Pos2Z.inj_succ.
    replace (Z.succ (Zpos (digits2_pos m)) - 1)
      with (Z.succ (Zpos (digits2_pos m) - 1)) by lia.
    rewrite Z.pow_succ_r by lia. lia.
  - simpl. lia.
Qed.

(** A binary64 above the smallest exponent has a full mantissa. *)
Lemma wf_normal s m e :
  wf (S754_finite s m e) -> -1074 < e -> 2 ^ 52 <= Zpos m.
Proof.
  unfold wf, valid_binary, bounded, canonical_mantissa, fexp, emin, prec, emax.
  intros H L. apply andb_prop in H. destruct H as [H _].
  apply Z.eqb_eq in H.
  assert (D : Zpos (digits2_pos m) = 53) by lia.
  pose proof (digits2_pos_lower m) as B. rewrite D in B. exact B.
Qed.

Lemma compare_mantissa (m m0 : positive) :
  Pos.compare_cont Eq m m0 = (Zpos m ?= Zpos m0).
Proof. reflexivity. Qed.

Lemma leb_at_most_25 (m0 m : positive) (e : Z) :
  Zpos m0 = 25 * 2 ^ 48 ->
  Zpos m < 2 ^ 53 -> (-1074 < e -> 2 ^ 52 <= Zpos m) ->
  (SFleb (S754_finite false m e) (S754_finite false m0 (-48)) = true <->
   at_most_25 m e).
Proof.
  intros M U N. unfold SFleb, SFcompare, at_most_25.
  rewrite compare_mantissa.
  assert (P48 : 0 < 2 ^ 48) by (apply Z.pow_pos_nonneg; lia).
  assert (P53 : 2 ^ 53 = 32 * 2 ^ 48)
    by (change 53 with (5 + 48); rewrite Z.pow_add_r by lia; reflexivity).
  assert (P52 : 2 ^ 52 = 16 * 2 ^ 48)
    by (change 52 with (4 + 48); rewrite Z.pow_add_r by lia; reflexivity).
  destruct (Z.compare_spec e (-48)) as [C|C|C].
  - subst e. destruct (Z.compare_spec (Zpos m) (Zpos m0)) as [E|E|E];
      split; intros H; try reflexivity; try discriminate H; lia.
  - split; [intros _|reflexivity].
    destruct e as [|q|q]; try lia.
    assert (P : 2 ^ (1 + 48) <= 2 ^ Zpos q)
      by (apply Z.pow_le_mono_r; lia).
    rewrite Z.pow_add_r in P by lia. change (2 ^ 1) with 2 in P. lia.
  - specialize (N ltac:(lia)).
    split; [discriminate|]. intros H. exfalso.
    destruct e as [|q|q].
    + rewrite Z.pow_0_r in H. lia.
    + assert (P : 0 < 2 ^ Zpos q) by (apply Z.pow_pos_nonneg; lia).
      assert (Zpos m * 1 <= Zpos m * 2 ^ Zpos q)
        by (apply Z.mul_le_mono_nonneg_l; lia).
      lia.
    + assert (P : 2 ^ Zpos q * 2 <= 2 ^ 48).
      { change 48 with (47 + 1) at 1. rewrite (Z.pow_add_r 2 47 1) by lia.
        change (2 ^ 1) with 2. apply Z.mul_le_mono_nonneg_r; [lia|].
        apply Z.pow_le_mono_r; lia. }
      lia.
Qed.

Lemma at_most_25_value (m : positive) (e : Z) :
  at_most_25 m e <-> (F2Q (S754_finite false m e) <= 25)%Q.
Proof.
  unfold at_most_25, F2Q, cond_Zopp, Qle.
  destruct e as [|q|q]; cbn [Qnum Qden inject_Z].
  - rewrite !Z.mul_1_r. reflexivity.
  - rewrite !Z.mul_1_r. reflexivity.
  - rewrite Pos2Z.inj_pow, Z.mul_1_r. reflexivity.
Qed.

Lemma negative_value (m : positive) (e : Z) :
  (F2Q (S754_finite true m e) <= 25)%Q.
Proof.
  unfold F2Q, cond_Zopp, Qle.
  destruct e as [|q|q]; cbn [Qnum Qden inject_Z].
  - rewrite Z.pow_0_r. lia.
  - assert (0 <= Zpos m * 2 ^ Zpos q)
      by (apply Z.mul_nonneg_nonneg; [lia|apply Z.pow_nonneg; lia]).
    rewrite Z.mul_opp_l. lia.
  - lia.
Qed.

Lemma threshold_mantissa : Zpos 7036874417766400 = 25 * 2 ^ 48.
Proof. vm_compute. reflexivity. Qed.

(** For a finite binary64 the program's [level <= 25] holds exactly when
    the value of the level is at most 25. *)
Lemma le_25_value (x : number) :
  wf x -> finite x -> (le x (of_Z 25) = true <-> (F2Q x <= 25)%Q).
Proof.
  rewrite of_Z_25. intros W F. unfold le.
  destruct x as [s|s| |s m e]; try destruct F.
  - split; [intros _; unfold F2Q, Qle; cbn [Qnum Qden]; lia|reflexivity].
  - destruct s.
    + split; [intros _; apply negative_value|reflexivity].
    + rewrite <- at_most_25_value.
      apply leb_at_most_25.
      * exact threshold_mantissa.
      * apply (wf_mantissa _ _ _ W).
      * apply (wf_normal _ _ _ W).
Qed.

End Value.

(** X9.  The evaluator's test agrees with the mathematical order: a reading
    whose level is a finite binary64 is selected exactly when the value of
    its level is at most 25. *)
Theorem selection_follows_value (t : tank) :
  wf (tank_level t) -> finite (tank_level t) ->
  (isLow constants t = true <-> (F2Q (tank_level t) <= 25)%Q).
Proof. intros W F. rewrite isLow_le. apply le_25_value; assumption. Qed.

Lemma selection_follows_value_witness :
  isLow constants (Examples.tank_at "A1" 10) = true.
Proof.
  assert (W : wf (tank_level (Examples.tank_at "A1" 10)))
    by (vm_compute; reflexivity).
  assert (F : finite (tank_level (Examples.tank_at "A1" 10)))
    by (vm_compute; exact I).
  apply (proj2 (selection_follows_value (Examples.tank_at "A1" 10) W F)).
  vm_compute. discriminate.
Defined.

(* ================================================================= *)
(** ** Rounding does not cross 25 *)

Section Bound.
Local Open Scope Z_scope.

Lemma pow2_split (e : Z) : e + 1 <= 0 -> 2 ^ (- e) = 2 * 2 ^ (- (e + 1)).
Proof.
  intros H. replace (- e) with (Z.succ (- (e + 1))) by lia.
  apply Z.pow_succ_r. lia.
Qed.

Lemma below_25_shr_1 (e : Z) (mrs : shr_record) :
  e + 1 <= 0 -> below_25 e mrs -> below_25 (e + 1) (shr_1 mrs).
Proof.
  intros H. unfold below_25. rewrite (pow2_split e H).
  assert (P : 0 < 2 ^ (- (e + 1))) by (apply Z.pow_pos_nonneg; lia).
  set (c := 2 ^ (- (e + 1))) in *.
  destruct mrs as [m r s]. cbn [shr_m]. intros [[L U] I].
  destruct m as [|[q|q|]|q]; cbn [shr_1 shr_m]; try lia.
  split; [lia|]. intros X.
  assert (Zpos q~0 < 25 * (2 * c)); [|lia].
  apply I. destruct r, s; simpl in X |- *; congruence.
Qed.

Lemma below_25_iter (p : positive) :
  forall e mrs,
    e + Zpos p <= 0 -> below_25 e mrs ->
    below_25 (e + Zpos p) (iter_pos shr_1 p mrs).
Proof.
  induction p as [p IH|p IH|]; intros e mrs H B; cbn [iter_pos].
  - replace (e + Zpos p~1) with (((e + 1) + Zpos p) + Zpos p) by lia.
    apply IH; [lia|]. apply IH; [lia|]. apply below_25_shr_1; [lia|exact B].
  - replace (e + Zpos p~0) with ((e + Zpos p) + Zpos p) by lia.
    apply IH; [lia|]. apply IH; [lia|exact B].
  - apply below_25_shr_1; assumption.
Qed.

Lemma digits2_small (m : positive) (n : Z) :
  0 <= n -> Zpos m < 2 ^ n -> Zpos (digits2_pos m) <= n.
Proof.
  intros N H. pose proof (digits2_pos_lower m) as L.
  assert (X : 2 ^ (Zpos (digits2_pos m) - 1) < 2 ^ n) by lia.
  apply Z.pow_lt_mono_r_iff in X; lia.
Qed.

(** The exponent that [shr_fexp] reaches is not above 0. *)
Lemma fexp_small (m e : Z) :
  e <= 0 -> 0 <= m <= 25 * 2 ^ (- e) ->
  fexp prec emax (Zdigits2 m + e) <= 0.
Proof.
  intros E [L U]. unfold fexp, emin, prec, emax.
  destruct m as [|q|q]; cbn [Zdigits2]; try lia.
  assert (D : Zpos (digits2_pos q) <= 5 - e).
  { apply digits2_small; [lia|].
    replace (5 - e) with (5 + - e) by lia. rewrite Z.pow_add_r by lia.
    change (2 ^ 5) with 32.
    assert (0 < 2 ^ (- e)) by (apply Z.pow_pos_nonneg; lia). lia. }
  lia.
Qed.

Lemma below_25_shr_fexp (m e : Z) (l : location) :
  e <= 0 -> below_25 e (shr_record_of_loc m l) ->
  snd (shr_fexp prec emax m e l) <= 0 /\
  below_25 (snd (shr_fexp prec emax m e l))
           (fst (shr_fexp prec emax m e l)).
Proof.
  intros E B. unfold shr_fexp, shr.
  assert (M : shr_m (shr_record_of_loc m l) = m)
    by (destruct l as [|[ | | ]]; reflexivity).
  pose proof (fexp_small m e E) as F.
  destruct B as [R I]. rewrite M in R. specialize (F R).
  destruct (fexp prec emax (Zdigits2 m + e) - e) as [|k|k] eqn:K;
    cbn [fst snd].
  - split; [exact E|]. split; [rewrite M; exact R|exact I].
  - split; [lia|]. apply below_25_iter; [lia|].
    split; [rewrite M; exact R|exact I].
  - split; [exact E|]. split; [rewrite M; exact R|exact I].
Qed.

Lemma loc_of_record_of_loc (m : Z) (l : location) :
  loc_of_shr_record (shr_record_of_loc m l) = l.
Proof. destruct l as [|[ | | ]]; reflexivity. Qed.

(** Rounding a value of at most 25 to nearest-even gives at most 25. *)
Lemma binary_round_aux_25 (mx ex : Z) (lx : location) :
  ex <= 0 -> 0 <= mx <= 25 * 2 ^ (- ex) ->
  (lx <> loc_Exact -> mx < 25 * 2 ^ (- ex)) ->
  from_0_to_25 (binary_round_aux prec emax false mx ex lx).
Proof.
  intros E R I. unfold binary_round_aux.
  assert (B0 : below_25 ex (shr_record_of_loc mx lx)).
  { split.
    - destruct lx as [|[ | | ]]; exact R.
    - rewrite loc_of_record_of_loc.
      destruct lx as [|[ | | ]]; exact I. }
  destruct (below_25_shr_fexp mx ex lx E B0) as [E1 [[L1 U1] I1]].
  destruct (shr_fexp prec emax mx ex lx) as [mrs' e']. cbn [fst snd] in *.
  set (m2 := round_nearest_even (shr_m mrs') (loc_of_shr_record mrs')).
  assert (R2 : 0 <= m2 <= 25 * 2 ^ (- e')).
  { subst m2. destruct (loc_of_shr_record mrs') as [|[ | | ]] eqn:K;
      cbn [round_nearest_even]; try lia.
    - destruct (Z.even (shr_m mrs')); [lia|].
      assert (shr_m mrs' < 25 * 2 ^ (- e')) by (apply I1; discriminate). lia.
    - assert (shr_m mrs' < 25 * 2 ^ (- e')) by (apply I1; discriminate). lia. }
  assert (B2 : below_25 e' (shr_record_of_loc m2 loc_Exact)).
  { split; [exact R2|]. intros X. exfalso. apply X. reflexivity. }
  destruct (below_25_shr_fexp m2 e' loc_Exact E1 B2) as [E3 [[L3 U3] _]].
  destruct (shr_fexp prec emax m2 e' loc_Exact) as [mrs'' e''].
  cbn [fst snd] in *.
  destruct (shr_m mrs'') as [|m3|m3]; try lia; [exact Logic.I|].
  replace (e'' <=? emax - prec) with true
    by (symmetry; apply Z.leb_le; unfold emax, prec; lia).
  unfold from_0_to_25, at_most_25.
  destruct e'' as [|k|k]; [|lia|exact U3].
  change (- 0) with 0 in U3. rewrite Z.pow_0_r in *. lia.
Qed.

Lemma binary_round_25 (p : positive) (e : Z) :
  e <= 0 -> Zpos p <= 25 * 2 ^ (- e) ->
  from_0_to_25 (binary_round prec emax false p e).
Proof.
  intros E U. unfold binary_round, shl_align.
  destruct (fexp prec emax (Zpos (digits2_pos p) + e) - e) as [|d|d] eqn:K;
    try (apply binary_round_aux_25; try lia; intros X; exfalso; apply X;
         reflexivity).
  apply binary_round_aux_25.
  - lia.
  - rewrite iter_xO.
    replace (- fexp prec emax (Zpos (digits2_pos p) + e))
      with (- e + Zpos d) by lia.
    rewrite Z.pow_add_r by lia.
    assert (0 < 2 ^ Zpos d) by (apply Z.pow_pos_nonneg; lia).
    split; [lia|]. rewrite Z.mul_assoc.
    apply Z.mul_le_mono_nonneg_r; lia.
  - intros X. exfalso. apply X. reflexivity.
Qed.

(** The difference [25 - x] for a binary64 [x] from 0 to 25 is from 0 to
    25. *)
Lemma sub_from_0_to_25 (m0 : positive) (x : number) :
  Zpos m0 = 25 * 2 ^ 48 ->
  wf x -> nonneg x -> finite x ->
  SFleb x (S754_finite false m0 (-48)) = true ->
  from_0_to_25 (SFsub prec emax (S754_finite false m0 (-48)) x).
Proof.
  intros M W N F L.
  assert (P48 : 0 < 2 ^ 48) by (apply Z.pow_pos_nonneg; lia).
  destruct x as [s|s| |s m e]; try destruct F; unfold SFsub.
  - unfold from_0_to_25, at_most_25. rewrite M. lia.
  - simpl in N. subst s. unfold cond_Zopp.
    pose proof (wf_mantissa _ _ _ W) as Bm.
    assert (P53 : 2 ^ 53 = 32 * 2 ^ 48)
      by (change 53 with (5 + 48); rewrite Z.pow_add_r by lia; reflexivity).
    unfold SFleb, SFcompare in L. rewrite compare_mantissa in L.
    set (ez := Z.min (-48) e).
    assert (Ez : ez <= -48) by (subst ez; lia).
    assert (A : Zpos (fst (shl_align m0 (-48) ez)) = 25 * 2 ^ (- ez)).
    { rewrite shl_align_fst by lia. rewrite M.
      replace (- ez) with (48 + (-48 - ez)) by lia.
      rewrite Z.pow_add_r by lia. lia. }
    assert (B : 0 < Zpos (fst (shl_align m e ez)) <=
                Zpos (fst (shl_align m0 (-48) ez))).
    { split; [lia|]. rewrite !shl_align_fst by (subst ez; lia). rewrite M.
      destruct (Z.compare_spec e (-48)) as [C|C|C]; try discriminate L.
      - subst e. subst ez. rewrite Z.min_id, Z.sub_diag, Z.pow_0_r.
        destruct (Z.compare_spec (Zpos m) (Zpos m0)); try discriminate L; lia.
      - subst ez. rewrite Z.min_r by lia. rewrite Z.sub_diag, Z.pow_0_r.
        assert (Q : 2 ^ 1 <= 2 ^ (-48 - e)) by (apply Z.pow_le_mono_r; lia).
        rewrite Z.pow_1_r in Q.
        assert (25 * 2 ^ 48 * 2 <= 25 * 2 ^ 48 * 2 ^ (-48 - e))
          by (apply Z.mul_le_mono_nonneg_l; lia).
        lia. }
    rewrite A in *.
    destruct (25 * 2 ^ (- ez) - Zpos (fst (shl_align m e ez)))
      as [|p|p] eqn:D; cbn [binary_normalize]; try lia.
    + exact Logic.I.
    + apply binary_round_25; lia.
Qed.

Lemma ge_1e21_at_most_25 (m : positive) (e : Z) :
  at_most_25 m e -> ge_1e21 m e = false.
Proof.
  unfold at_most_25, ge_1e21. intros H.
  assert (T : 25 < 10 ^ 21) by reflexivity.
  destruct e as [|k|k]; apply Z.leb_gt; lia.
Qed.

Lemma hundredths_at_most_2500 (m : positive) (e : Z) :
  at_most_25 m e -> 0 <= hundredths m e <= 2500.
Proof.
  intros H. split; [apply hundredths_nonneg|].
  unfold at_most_25, hundredths in *. destruct e as [|k|k].
  - rewrite Z.pow_0_r in *. lia.
  - lia.
  - assert (P : 0 < 2 ^ Zpos k) by (apply Z.pow_pos_nonneg; lia).
    rewrite Z.pow_add_r by lia. rewrite Z.pow_1_r.
    set (c := 2 ^ Zpos k) in *.
    apply Z.lt_succ_r. apply Z.div_lt_upper_bound; lia.
Qed.

(** The numeral printed for a number from 0 to 25 is from 0.00 to 25.00. *)
Lemma toFixed2_from_0_to_25 (d : number) :
  from_0_to_25 d ->
  exists n, toFixed2 d = FxDecimal false n /\ 0 <= n <= 2500.
Proof.
  destruct d as [s|s| |s m e]; simpl; try tauto.
  - intros _. exists 0. split; [reflexivity|lia].
  - destruct s; [tauto|]. intros H.
    rewrite (ge_1e21_at_most_25 _ _ H).
    eexists. split; [reflexivity|]. apply hundredths_at_most_2500, H.
Qed.

(** The number read back from a numeral from 0.00 to 25.00 is from 0 to
    25. *)
Lemma Number_from_0_to_25 (n : Z) :
  0 <= n <= 2500 -> from_0_to_25 (Number (FxDecimal false n)).
Proof.
  intros [L U]. destruct n as [|p|p]; try lia; cbn [Number];
    [exact Logic.I|].
  unfold SFdiv, SFdiv_core_binary.
  set (e' := Z.min _ _).
  assert (E : e' <= 0) by (subst e'; apply Z.le_min_r).
  set (m' := match 0 - 0 - e' with
             | Z0 => Zpos p | Zpos _ => _ | Zneg _ => _
             end).
  assert (P : 0 < 2 ^ (- e')) by (apply Z.pow_pos_nonneg; lia).
  assert (M : m' = Zpos p * 2 ^ (- e')).
  { subst m'. replace (0 - 0 - e') with (- e') by lia.
    destruct (- e') as [|k|k] eqn:K; try lia.
    apply Z.shiftl_mul_pow2. lia. }
  clearbody m'.
  pose proof (Z.div_mod m' 100 ltac:(lia)) as DM.
  pose proof (Z.mod_pos_bound m' 100 ltac:(lia)) as RB.
  unfold Z.div, Z.modulo in DM, RB.
  destruct (Z.div_eucl m' 100) as [q r].
  cbn [xorb]. set (c := 2 ^ (- e')) in *.
  assert (Mc : m' <= 2500 * c)
    by (rewrite M; apply Z.mul_le_mono_nonneg_r; lia).
  apply binary_round_aux_25.
  - exact E.
  - lia.
  - intros X.
    assert (R : r <> 0).
    { intros ->. apply X. reflexivity. }
    lia.
Qed.

End Bound.

(** X10.  For a reading whose level is a binary64 from 0 to 25, the printed
    deficit is a numeral from 0.00 to 25.00 and the recorded deficit is a
    finite number from 0 to 25: rounding never carries it past the
    threshold. *)
Theorem deficit_within_threshold (t : tank) :
  wf (tank_level t) ->
  le (of_Z 0) (tank_level t) = true ->
  isLow constants t = true ->
  let d := deficit (lowTankOf constants t) in
  finite d /\
  le (of_Z 0) d = true /\
  (F2Q d <= 25)%Q /\
  exists n, toFixed2 (sub (of_Z 25) (tank_level t)) = FxDecimal false n /\
            (0 <= n <= 2500)%Z.
Proof.
  intros W Z L d. rewrite isLow_le in L. apply nonneg_le_zero in Z.
  assert (F : finite (tank_level t)).
  { destruct (tank_level t) as [s|s| |s m e]; simpl in *; try tauto.
    subst s. discriminate L. }
  assert (S : from_0_to_25 (sub (of_Z 25) (tank_level t))).
  { unfold sub. unfold le in L. rewrite of_Z_25 in *.
    apply sub_from_0_to_25; try assumption. exact threshold_mantissa. }
  destruct (toFixed2_from_0_to_25 _ S) as [n [T B]].
  assert (D : from_0_to_25 d).
  { subst d. unfold lowTankOf. cbn [deficit].
    rewrite low_threshold_25, T. apply Number_from_0_to_25, B. }
  split; [|split; [|split]].
  - destruct d as [s|s| |s m e]; simpl in D |- *; tauto.
  - apply nonneg_le_zero.
    destruct d as [s|s| |[|] m e]; simpl in D |- *; tauto.
  - destruct d as [s|s| |[|] m e]; simpl in D; try tauto.
    + unfold Qle. simpl. lia.
    + apply at_most_25_value, D.
  - exists n. split; assumption.
Qed.

Lemma deficit_within_threshold_witness :
  finite (deficit (lowTankOf constants (Examples.tank_at "A1" 10))).
Proof.
  assert (W : wf (tank_level (Examples.tank_at "A1" 10)))
    by (vm_compute; reflexivity).
  assert (Z : le (of_Z 0) (tank_level (Examples.tank_at "A1" 10)) = true)
    by (vm_compute; reflexivity).
  assert (L : isLow constants (Examples.tank_at "A1" 10) = true)
    by (vm_compute; reflexivity).
  exact (proj1 (deficit_within_threshold _ W Z L)).
Defined.

(* ================================================================= *)
(** ** How far the binary64 difference is from the exact one *)

Section Grid.
Local Open Scope Z_scope.

Lemma grid_split (e : Z) :
  e + 1 <= -48 -> 2 ^ (-48 - e) = 2 * 2 ^ (-48 - (e + 1)).
Proof.
  intros H. replace (-48 - e) with (Z.succ (-48 - (e + 1))) by lia.
  apply Z.pow_succ_r. lia.
Qed.

Lemma on_grid_shr_1 (lo hi e : Z) (mrs : shr_record) :
  0 <= lo -> e + 1 <= -48 ->
  on_grid lo hi e mrs -> on_grid lo hi (e + 1) (shr_1 mrs).
Proof.
  intros L H. unfold on_grid. rewrite (grid_split e H).
  assert (P : 0 < 2 ^ (-48 - (e + 1))) by (apply Z.pow_pos_nonneg; lia).
  set (c := 2 ^ (-48 - (e + 1))) in *.
  replace (lo * (2 * c)) with (2 * (lo * c)) by ring.
  replace (hi * (2 * c)) with (2 * (hi * c)) by ring.
  assert (X : 0 <= lo * c) by (apply Z.mul_nonneg_nonneg; lia).
  set (x := lo * c) in *. set (y := hi * c) in *.
  destruct mrs as [m r s]. cbn [shr_m]. intros [[A B] I].
  assert (S : forall b, loc_of_shr_record (Build_shr_record b false (r || s))
                        <> loc_Exact ->
                        loc_of_shr_record (Build_shr_record (2 * b) r s)
                        <> loc_Exact).
  { intros b K. destruct r, s; simpl in K |- *; congruence. }
  destruct m as [|[q|q|]|q]; cbn [shr_1 shr_m]; try lia.
  - split; [lia|]. intros K. specialize (I (S 0 K)). lia.
  - split; [lia|]. intros K. specialize (I (S (Zpos q) K)). lia.
Qed.

Lemma on_grid_iter (lo hi : Z) (p : positive) :
  0 <= lo ->
  forall e mrs,
    e + Zpos p <= -48 -> on_grid lo hi e mrs ->
    on_grid lo hi (e + Zpos p) (iter_pos shr_1 p mrs).
Proof.
  intros L. induction p as [p IH|p IH|]; intros e mrs H B; cbn [iter_pos].
  - replace (e + Zpos p~1) with (((e + 1) + Zpos p) + Zpos p) by lia.
    apply IH; [lia|]. apply IH; [lia|].
    apply on_grid_shr_1; [exact L|lia|exact B].
  - replace (e + Zpos p~0) with ((e + Zpos p) + Zpos p) by lia.
    apply IH; [lia|]. apply IH; [lia|exact B].
  - apply on_grid_shr_1; assumption.
Qed.

(** The exponent that [shr_fexp] reaches is not above -48. *)
Lemma fexp_grid (hi m e : Z) :
  e <= -48 -> hi < 32 * 2 ^ 48 -> 0 <= m <= hi * 2 ^ (-48 - e) ->
  fexp prec emax (Zdigits2 m + e) <= -48.
Proof.
  intros E H [L U]. unfold fexp, emin, prec, emax.
  destruct m as [|q|q]; cbn [Zdigits2]; try lia.
  assert (D : Zpos (digits2_pos q) <= 5 - e).
  { apply digits2_small; [lia|].
    replace (5 - e) with (53 + (-48 - e)) by lia. rewrite Z.pow_add_r by lia.
    assert (P : 0 < 2 ^ (-48 - e)) by (apply Z.pow_pos_nonneg; lia).
    assert (T : 2 ^ 53 = 32 * 2 ^ 48)
      by (change 53 with (5 + 48); rewrite Z.pow_add_r by lia; reflexivity).
    rewrite T. apply Z.le_lt_trans with (1 := U).
    apply Z.mul_lt_mono_pos_r; assumption. }
  lia.
Qed.

Lemma on_grid_shr_fexp (lo hi m e : Z) (l : location) :
  0 <= lo -> hi < 32 * 2 ^ 48 -> e <= -48 ->
  on_grid lo hi e (shr_record_of_loc m l) ->
  snd (shr_fexp prec emax m e l) <= -48 /\
  on_grid lo hi (snd (shr_fexp prec emax m e l))
          (fst (shr_fexp prec emax m e l)).
Proof.
  intros L H E B. unfold shr_fexp, shr.
  assert (M : shr_m (shr_record_of_loc m l) = m)
    by (destruct l as [|[ | | ]]; reflexivity).
  destruct B as [R I]. rewrite M in R.
  assert (N : 0 <= m).
  { assert (0 <= lo * 2 ^ (-48 - e))
      by (apply Z.mul_nonneg_nonneg; [lia|apply Z.pow_nonneg; lia]).
    lia. }
  pose proof (fexp_grid hi m e E H (conj N (proj2 R))) as F.
  destruct (fexp prec emax (Zdigits2 m + e) - e) as [|k|k] eqn:K;
    cbn [fst snd].
  - split; [exact E|]. split; [rewrite M; exact R|exact I].
  - split; [lia|]. apply on_grid_iter; [exact L|lia|].
    split; [rewrite M; exact R|exact I].
  - split; [exact E|]. split; [rewrite M; exact R|exact I].
Qed.

(** Rounding to nearest-even does not leave an interval whose ends are
    multiples of [2^-48]. *)
Lemma binary_round_aux_grid (lo hi mx ex : Z) :
  0 <= lo -> hi < 32 * 2 ^ 48 -> ex <= -48 ->
  lo * 2 ^ (-48 - ex) <= mx <= hi * 2 ^ (-48 - ex) ->
  between_units lo hi (binary_round_aux prec emax false mx ex loc_Exact).
Proof.
  intros L H E R. unfold binary_round_aux.
  assert (B0 : on_grid lo hi ex (shr_record_of_loc mx loc_Exact)).
  { split; [exact R|]. intros X. exfalso. apply X. reflexivity. }
  destruct (on_grid_shr_fexp lo hi mx ex loc_Exact L H E B0)
    as [E1 [[L1 U1] I1]].
  destruct (shr_fexp prec emax mx ex loc_Exact) as [mrs' e'].
  cbn [fst snd] in *.
  set (m2 := round_nearest_even (shr_m mrs') (loc_of_shr_record mrs')).
  assert (R2 : lo * 2 ^ (-48 - e') <= m2 <= hi * 2 ^ (-48 - e')).
  { subst m2. destruct (loc_of_shr_record mrs') as [|[ | | ]] eqn:K;
      cbn [round_nearest_even]; try lia.
    - destruct (Z.even (shr_m mrs')); [lia|].
      assert (shr_m mrs' < hi * 2 ^ (-48 - e')) by (apply I1; discriminate).
      lia.
    - assert (shr_m mrs' < hi * 2 ^ (-48 - e')) by (apply I1; discriminate).
      lia. }
  assert (B2 : on_grid lo hi e' (shr_record_of_loc m2 loc_Exact)).
  { split; [exact R2|]. intros X. exfalso. apply X. reflexivity. }
  destruct (on_grid_shr_fexp lo hi m2 e' loc_Exact L H E1 B2)
    as [E3 [[L3 U3] _]].
  destruct (shr_fexp prec emax m2 e' loc_Exact) as [mrs'' e''].
  cbn [fst snd] in *.
  assert (P : 0 < 2 ^ (-48 - e'')) by (apply Z.pow_pos_nonneg; lia).
  assert (X : 0 <= lo * 2 ^ (-48 - e''))
    by (apply Z.mul_nonneg_nonneg; lia).
  destruct (shr_m mrs'') as [|m3|m3]; try lia.
  - cbn [between_units].
    destruct (Z.eq_dec lo 0) as [->|N]; [lia|].
    assert (0 < lo * 2 ^ (-48 - e'')) by (apply Z.mul_pos_pos; lia). lia.
  - replace (e'' <=? emax - prec) with true
      by (symmetry; apply Z.leb_le; unfold emax, prec; lia).
    cbn [between_units]. split; [exact E3|]. split; assumption.
Qed.

Lemma binary_round_grid (lo hi : Z) (p : positive) (e : Z) :
  0 <= lo -> hi < 32 * 2 ^ 48 -> e <= -48 ->
  lo * 2 ^ (-48 - e) <= Zpos p <= hi * 2 ^ (-48 - e) ->
  between_units lo hi (binary_round prec emax false p e).
Proof.
  intros L H E R. unfold binary_round, shl_align.
  destruct (fexp prec emax (Zpos (digits2_pos p) + e) - e) as [|d|d] eqn:K;
    try (apply binary_round_aux_grid; assumption).
  apply binary_round_aux_grid; try assumption; [lia|].
  rewrite iter_xO.
  replace (-48 - fexp prec emax (Zpos (digits2_pos p) + e))
    with ((-48 - e) + Zpos d) by lia.
  rewrite Z.pow_add_r by lia.
  assert (0 < 2 ^ Zpos d) by (apply Z.pow_pos_nonneg; lia).
  rewrite !Z.mul_assoc.
  split; apply Z.mul_le_mono_nonneg_r; lia.
Qed.

(** For a positive binary64 [m * 2^e] at most 25, the binary64 difference
    from 25 and the exact difference [(25 * 2^-e - m) * 2^e] lie between
    the same two neighbouring multiples of [2^-48]. *)
Lemma sub_on_grid (m0 m : positive) (e : Z) :
  Zpos m0 = 25 * 2 ^ 48 ->
  wf (S754_finite false m e) ->
  SFleb (S754_finite false m e) (S754_finite false m0 (-48)) = true ->
  exists lo,
    0 <= lo /\ e <= -48 /\
    lo * 2 ^ (-48 - e) <= 25 * 2 ^ (- e) - Zpos m
      < (lo + 1) * 2 ^ (-48 - e) /\
    between_units lo (lo + 1)
      (SFsub prec emax (S754_finite false m0 (-48))
             (S754_finite false m e)).
Proof.
  intros M W L.
  assert (P48 : 0 < 2 ^ 48) by (apply Z.pow_pos_nonneg; lia).
  pose proof (wf_mantissa _ _ _ W) as Bm.
  assert (P53 : 2 ^ 53 = 32 * 2 ^ 48)
    by (change 53 with (5 + 48); rewrite Z.pow_add_r by lia; reflexivity).
  unfold SFleb, SFcompare in L. rewrite compare_mantissa in L.
  assert (E : e <= -48)
    by (destruct (Z.compare_spec e (-48)); try discriminate L; lia).
  assert (Pc : 0 < 2 ^ (-48 - e)) by (apply Z.pow_pos_nonneg; lia).
  assert (T : 2 ^ (- e) = 2 ^ 48 * 2 ^ (-48 - e)).
  { rewrite <- Z.pow_add_r by lia. f_equal. lia. }
  set (c := 2 ^ (-48 - e)) in *.
  assert (D0 : 0 <= 25 * 2 ^ (- e) - Zpos m <= 25 * 2 ^ 48 * c).
  { rewrite T. split; [|lia].
    destruct (Z.compare_spec e (-48)) as [C|C|C]; try discriminate L.
    - subst e. subst c. change (-48 - -48) with 0. rewrite Z.pow_0_r.
      destruct (Z.compare_spec (Zpos m) (Zpos m0)); try discriminate L; lia.
    - assert (Q : 2 ^ 1 <= c) by (subst c; apply Z.pow_le_mono_r; lia).
      rewrite Z.pow_1_r in Q.
      assert (25 * 2 ^ 48 * 2 <= 25 * 2 ^ 48 * c)
        by (apply Z.mul_le_mono_nonneg_l; lia).
      lia. }
  set (D := 25 * 2 ^ (- e) - Zpos m) in *.
  pose proof (Z.div_mod D c ltac:(lia)) as DM.
  pose proof (Z.mod_pos_bound D c Pc) as RB.
  assert (Q0 : 0 <= D / c) by (apply Z.div_pos; lia).
  assert (Q1 : D / c <= 25 * 2 ^ 48).
  { apply Z.div_le_upper_bound; [lia|]. lia. }
  exists (D / c). split; [exact Q0|]. split; [exact E|]. split; [lia|].
  unfold SFsub, cond_Zopp. rewrite Z.min_r by lia.
  rewrite !shl_align_fst by lia. rewrite Z.sub_diag, Z.pow_0_r, M.
  replace (25 * 2 ^ 48 * 2 ^ (-48 - e) - Zpos m * 1) with D
    by (subst D; rewrite T; fold c; ring).
  destruct D as [|p|p] eqn:HD; cbn [binary_normalize]; try lia.
  - cbn [between_units]. rewrite Z.div_0_l by lia. lia.
  - apply binary_round_grid; fold c; lia.
Qed.

End Grid.

(* ================================================================= *)
(** ** The deficit against the exact difference *)

Section Accuracy.
Local Open Scope Z_scope.

Lemma units_value (lo hi : Z) (x : number) :
  0 <= hi -> between_units lo hi x ->
  (Qmake lo (2 ^ 48) <= F2Q x /\ F2Q x <= Qmake hi (2 ^ 48))%Q.
Proof.
  intros H B.
  destruct x as [s|s| |[|] m e]; cbn [between_units] in B; try tauto.
  - unfold F2Q, Qle. cbn [Qnum Qden]. lia.
  - destruct B as [E [L U]].
    destruct e as [|k|k]; try lia. unfold F2Q, cond_Zopp, Qle.
    cbn [Qnum Qden]. rewrite !Pos2Z.inj_pow.
    replace (-48 - Zneg k) with (Zpos k - 48) in L, U by lia.
    assert (T : 2 ^ Zpos k = 2 ^ (Zpos k - 48) * 2 ^ 48).
    { rewrite <- Z.pow_add_r by lia. f_equal. lia. }
    rewrite T.
    assert (P : 0 < 2 ^ 48) by (apply Z.pow_pos_nonneg; lia).
    rewrite !Z.mul_assoc.
    split; apply Z.mul_le_mono_nonneg_r; lia.
Qed.

Lemma exact_units (lo : Z) (m : positive) (e : Z) :
  e <= -48 ->
  lo * 2 ^ (-48 - e) <= 25 * 2 ^ (- e) - Zpos m
    < (lo + 1) * 2 ^ (-48 - e) ->
  (Qmake lo (2 ^ 48) <= 25 - F2Q (S754_finite false m e) /\
   25 - F2Q (S754_finite false m e) <= Qmake (lo + 1) (2 ^ 48))%Q.
Proof.
  intros E [L U]. destruct e as [|k|k]; try lia.
  unfold F2Q, cond_Zopp, Qle, Qminus, Qplus, Qopp.
  cbn [Qnum Qden]. rewrite !Pos2Z.inj_mul, !Pos2Z.inj_pow.
  replace (-48 - Zneg k) with (Zpos k - 48) in L, U by lia.
  change (- Zneg k) with (Zpos k) in L, U.
  assert (T : 2 ^ Zpos k = 2 ^ (Zpos k - 48) * 2 ^ 48).
  { rewrite <- Z.pow_add_r by lia. f_equal. lia. }
  assert (P : 0 < 2 ^ 48) by (apply Z.pow_pos_nonneg; lia).
  set (D := 25 * 2 ^ Zpos k - Zpos m) in *.
  replace (25 * 2 ^ Zpos k + - Zpos m * 1) with D by (subst D; ring).
  replace (lo * (1 * 2 ^ Zpos k))
    with (lo * 2 ^ (Zpos k - 48) * 2 ^ 48) by (rewrite T; ring).
  replace ((lo + 1) * (1 * 2 ^ Zpos k))
    with ((lo + 1) * 2 ^ (Zpos k - 48) * 2 ^ 48) by (rewrite T; ring).
  split; apply Z.mul_le_mono_nonneg_r; lia.
Qed.

(** For a level from 0 to 25, the binary64 [25 - level] is within [2^-48]
    of the exact difference. *)
Lemma difference_accuracy (x : number) :
  wf x -> nonneg x -> le x (of_Z 25) = true ->
  (25 - F2Q x - unit48 <= F2Q (sub (of_Z 25) x) /\
   F2Q (sub (of_Z 25) x) <= 25 - F2Q x + unit48)%Q.
Proof.
  rewrite of_Z_25. unfold le, sub. intros W N L.
  destruct x as [s|s| |s m e]; simpl in N; try tauto.
  - cbn [SFsub]. split; unfold Qle; vm_compute; discriminate.
  - subst s. discriminate L.
  - subst s.
    destruct (sub_on_grid _ m e threshold_mantissa W L)
      as [lo [L0 [E [X B]]]].
    apply units_value in B; [|lia].
    apply (exact_units lo m e E) in X.
    pose proof (Qinv_plus_distr lo 1 (2 ^ 48)) as S.
    fold unit48 in S.
    set (d := F2Q (SFsub prec emax (S754_finite false 7036874417766400 (-48))
                         (S754_finite false m e))) in *.
    set (v := F2Q (S754_finite false m e)) in *.
    set (a := Qmake lo (2 ^ 48)) in *.
    set (b := Qmake (lo + 1) (2 ^ 48)) in *.
    set (u := unit48) in *. clearbody d v a b u. clear - B X S.
    split; lra.
Qed.

End Accuracy.

(** C2 (as the code computes it).  For a reading at or below 25 whose level
    is a binary64, the recorded deficit is [Number((25 - level).toFixed(2))]
    with every step in binary64: the threshold minus the level, rounded to
    a binary64 that is not negative; the two-decimal numeral printed for it
    is the number of hundredths nearest to that binary64, the larger on a
    tie; the deficit is the number read back from the numeral.  For a level
    from 0 to 25 the binary64 difference lies within [2^-48] of the exact
    [25 - level], so the numeral, from 0.00 to 25.00, lies within
    [0.005 + 2^-48] of the exact difference.  At level 10 the numeral is
    15.00 and the deficit 15. *)
Theorem deficit_rounds_binary64_difference (t : tank) :
  wf (tank_level t) -> isLow constants t = true ->
  let d := sub (of_Z 25) (tank_level t) in
  let exact := (25 - F2Q (tank_level t))%Q in
  deficit (lowTankOf constants t) = Number (toFixed2 d) /\
  nonneg d /\
  match toFixed2 d with
  | FxDecimal s n =>
      s = false /\
      (100 * F2Q d - (1 # 2) < inject_Z n /\
       inject_Z n <= 100 * F2Q d + (1 # 2))%Q
  | FxExponent s m e => s = false /\ Number (toFixed2 d) = d
  | FxInfinity s => s = false
  | FxNaN => False
  end /\
  (nonneg (tank_level t) ->
   (exact - unit48 <= F2Q d /\ F2Q d <= exact + unit48)%Q /\
   exists n,
     toFixed2 d = FxDecimal false n /\ (0 <= n <= 2500)%Z /\
     (100 * exact - (1 # 2) - 100 * unit48 < inject_Z n /\
      inject_Z n <= 100 * exact + (1 # 2) + 100 * unit48)%Q) /\
  (tank_level t = of_Z 10 ->
   toFixed2 d = FxDecimal false 1500 /\
   deficit (lowTankOf constants t) = of_Z 15).
Proof.
  intros W L d exact. rewrite isLow_le in L.
  pose proof (sub_25_nonneg _ W L) as N. fold d in N.
  assert (R : match toFixed2 d with
              | FxDecimal s n =>
                  s = false /\
                  (100 * F2Q d - (1 # 2) < inject_Z n /\
                   inject_Z n <= 100 * F2Q d + (1 # 2))%Q
              | FxExponent s m e => s = false /\ Number (toFixed2 d) = d
              | FxInfinity s => s = false
              | FxNaN => False
              end).
  { destruct d as [s|s| |s m e]; simpl in N; unfold toFixed2.
    - split; [reflexivity|]. unfold Qlt, Qle; simpl; lia.
    - exact N.
    - exact N.
    - subst s. destruct (ge_1e21 m e) eqn:G.
      + split; reflexivity.
      + split; [reflexivity|]. apply hundredths_nearest. }
  split; [reflexivity|]. split; [exact N|]. split; [exact R|]. split.
  - intros P.
    pose proof (difference_accuracy _ W P L) as A.
    fold d in A. fold exact in A.
    assert (F : finite (tank_level t)).
    { clear - P L. destruct (tank_level t) as [s|s| |s m e];
        cbn [nonneg finite] in *; try tauto.
      subst s. discriminate L. }
    assert (S : from_0_to_25 d).
    { subst d. unfold sub. unfold le in L. rewrite of_Z_25 in *.
      apply sub_from_0_to_25; try assumption. exact threshold_mantissa. }
    destruct (toFixed2_from_0_to_25 _ S) as [n [T B]].
    split; [exact A|]. exists n. split; [exact T|]. split; [exact B|].
    rewrite T in R. destruct R as [_ R].
    set (q := F2Q d) in *. set (z := inject_Z n) in *.
    set (u := unit48) in *. clearbody q z u exact. clear - A R.
    split; lra.
  - intros E. subst d. unfold lowTankOf. cbn [deficit]. rewrite E.
    split; vm_compute; reflexivity.
Qed.

Lemma deficit_rounds_binary64_difference_witness :
  deficit (lowTankOf constants (Examples.tank_at "A1" 10)) = of_Z 15.
Proof.
  assert (W : wf (tank_level (Examples.tank_at "A1" 10)))
    by (vm_compute; reflexivity).
  assert (L : isLow constants (Examples.tank_at "A1" 10) = true)
    by (vm_compute; reflexivity).
  destruct (deficit_rounds_binary64_difference _ W L) as [_ [_ [_ [_ X]]]].
  destruct (X eq_refl) as [_ D]. exact D.
Defined.

(** C2, the reading that tells the two roundings apart.  The level
    [4925812092436481 * 2^-50], written 4.375000000000001, is a binary64
    below 25.  The exact difference [25 - level] is [20.625 - 2^-50], whose
    nearest number of hundredths is 2062 under every rule for ties; the
    binary64 difference is 20.625, the numeral printed for it is 20.63, and
    the recorded deficit is the number 20.63, above 20.62. *)
Lemma deficit_is_not_the_rounded_exact_difference :
  wf near_tie_level /\
  isLow constants near_tie_tank = true /\
  (inject_Z 2062 - (1 # 2) < 100 * (25 - F2Q near_tie_level))%Q /\
  (100 * (25 - F2Q near_tie_level) < inject_Z 2062 + (1 # 2))%Q /\
  sub (of_Z 25) near_tie_level = S754_finite false 5805421394657280 (-48) /\
  toFixed2 (sub (of_Z 25) near_tie_level) = FxDecimal false 2063 /\
  deficit (lowTankOf constants near_tie_tank) = Number (FxDecimal false 2063) /\
  lt (Number (FxDecimal false 2062))
     (deficit (lowTankOf constants near_tie_tank)) = true.
Proof.
  repeat split; vm_compute; reflexivity.
Qed.

(* ================================================================= *)
(** ** Two-decimal numerals *)

Lemma same_fixed2_eq (s t : fixed2) : same_fixed2 s t = true -> s = t.
Proof.
  destruct s as [|a|a m e|a n], t as [|b|b m' e'|b n']; simpl;
    try discriminate; try reflexivity; intros H.
  - apply Bool.eqb_prop in H. congruence.
  - apply andb_prop in H. destruct H as [H E]. apply andb_prop in H.
    destruct H as [S M]. apply Bool.eqb_prop in S. apply Pos.eqb_eq in M.
    apply Z.eqb_eq in E. congruence.
  - apply andb_prop in H. destruct H as [S N]. apply Bool.eqb_prop in S.
    apply Z.eqb_eq in N. congruence.
Qed.

Lemma forallb_seq (f : nat -> bool) (n k : nat) :
  forallb f (seq 0 n) = true -> k < n -> f k = true.
Proof.
  intros H L. rewrite forallb_forall in H. apply H. apply in_seq. lia.
Qed.

Lemma prints_back_all : forallb prints_back (seq 0 2501) = true.
Proof. vm_compute. reflexivity. Qed.

Lemma deficit_exact_all : forallb deficit_exact (seq 0 2501) = true.
Proof. vm_compute. reflexivity. Qed.

(** X17.  For a reading whose level is a binary64 from 0 to 25, the
    recorded deficit printed with two decimals is the numeral it was read
    from: [Number(s).toFixed(2)] is [s] again for [s = (25 -
    level).toFixed(2)], so the deficit carries exactly two decimals. *)
Theorem deficit_prints_back (t : tank) :
  wf (tank_level t) ->
  le (of_Z 0) (tank_level t) = true ->
  isLow constants t = true ->
  toFixed2 (deficit (lowTankOf constants t)) =
  toFixed2 (sub (of_Z 25) (tank_level t)).
Proof.
  intros W Z L. rewrite isLow_le in L. apply nonneg_le_zero in Z.
  assert (F : finite (tank_level t)).
  { destruct (tank_level t) as [s|s| |s m e]; simpl in *; try tauto.
    subst s. discriminate L. }
  assert (S : from_0_to_25 (sub (of_Z 25) (tank_level t))).
  { unfold sub. unfold le in L. rewrite of_Z_25 in *.
    apply sub_from_0_to_25; try assumption. exact threshold_mantissa. }
  destruct (toFixed2_from_0_to_25 _ S) as [n [T B]].
  unfold lowTankOf. cbn [deficit]. rewrite low_threshold_25, T.
  pose proof (forallb_seq _ _ (Z.to_nat n) prints_back_all ltac:(lia)) as P.
  unfold prints_back, hundredth in P. rewrite Z2Nat.id in P by lia.
  apply same_fixed2_eq, P.
Qed.

Lemma deficit_prints_back_witness :
  toFixed2 (deficit (lowTankOf constants (Examples.tank_at "A1" 10))) =
  FxDecimal false 1500.
Proof.
  assert (W : wf (tank_level (Examples.tank_at "A1" 10)))
    by (vm_compute; reflexivity).
  assert (Z : le (of_Z 0) (tank_level (Examples.tank_at "A1" 10)) = true)
    by (vm_compute; reflexivity).
  assert (L : isLow constants (Examples.tank_at "A1" 10) = true)
    by (vm_compute; reflexivity).
  rewrite (deficit_prints_back _ W Z L). vm_compute. reflexivity.
Defined.

(** X18.  For a level written with at most two decimals from 0.00 to
    25.00, that is the binary64 nearest to [k / 100] with [k <= 2500], the
    reading is low, [25 - level] prints as exactly [(2500 - k) / 100], and
    the recorded deficit is the binary64 nearest to that: binary rounding
    leaves no trace in the deficit of such a level. *)
Theorem two_decimal_levels_are_exact (k : nat) (t : tank) :
  k <= 2500 ->
  tank_level t = hundredth k ->
  isLow constants t = true /\
  toFixed2 (sub (of_Z 25) (tank_level t)) =
    FxDecimal false (Z.of_nat (2500 - k)) /\
  deficit (lowTankOf constants t) = hundredth (2500 - k).
Proof.
  intros K E.
  pose proof (forallb_seq _ _ k deficit_exact_all ltac:(lia)) as P.
  unfold deficit_exact in P. apply andb_prop in P. destruct P as [L X].
  apply same_fixed2_eq in X.
  rewrite isLow_le, E. split; [exact L|]. split; [exact X|].
  unfold lowTankOf. cbn [deficit]. rewrite low_threshold_25, E, X.
  reflexivity.
Qed.

Lemma two_decimal_levels_are_exact_witness :
  deficit (lowTankOf constants
             {| tank_id := "A3"; tank_name := "Tank A3";
                tank_level := hundredth 2499;
                tank_lastUpdated := ""; tank_rest := [] |}) =
  hundredth 1.
Proof.
  apply (two_decimal_levels_are_exact 2499); [lia|reflexivity].
Defined.
